(** * Rate-limited order writes against Cosmos DB (Cassandra API)

    A shallow embedding of [main.go]: the process start-up ([init]), the
    HTTP handler [Add] and the query observer [OrderInsertErrorLogger].
    The Go standard library and the gocql driver are represented by the
    part of their documented behaviour that [main.go] relies on.  The
    attempt loop and the retry policy live in packages that [main.go]
    only imports; they are modelled from the specification in the module
    [Orchestrator]. *)

From Stdlib Require Import ZArith Lia Bool List Ascii String DecimalString.
From Stdlib Require DecimalPos.
From stdpp Require Import base option gmap strings.

Local Open Scope string_scope.
Local Open Scope Z_scope.

(** ** Go's [int] on a 64-bit platform *)

Module GoInt.

Definition MinInt : Z := - 2 ^ 63.
Definition MaxInt : Z := 2 ^ 63 - 1.

(** Two's-complement wrap-around of the mathematical result. *)
Definition wrap (x : Z) : Z := (x + 2 ^ 63) mod 2 ^ 64 - 2 ^ 63.

Definition add (a b : Z) : Z := wrap (a + b).

Definition InRange (x : Z) : Prop := MinInt <= x <= MaxInt.

End GoInt.

(** ** Package [strings] *)

Module strings.

(** [strings.Index(s, substr)]: index of the first instance of [substr]
    in [s], or -1. *)
Definition Index (s substr : string) : Z :=
  match String.index 0 substr s with
  | Some n => Z.of_nat n
  | None => -1
  end.

(** [func Contains(s, substr string) bool { return Index(s, substr) >= 0 }] *)
Definition Contains (s substr : string) : bool := Index s substr >=? 0.

End strings.

(** ** Package [fmt]: the verbs used by [main.go] *)

Module fmt.

(** [%v] applied to an [int]: signed decimal. *)
Definition verb_v_int (n : Z) : string := NilZero.string_of_int (Z.to_int n).

Definition LF : string := String "010"%char EmptyString.

End fmt.

(** ** Package [strconv] *)

Module strconv.

Inductive ErrKind := ErrSyntax | ErrRange.

(** [*strconv.NumError] *)
Record NumError := { Func : string; Num : string; Err : ErrKind }.

(** [strconv.ParseBool]: the twelve accepted spellings. *)
Definition ParseBool (str : string) : bool * option NumError :=
  if String.eqb str "1" || String.eqb str "t" || String.eqb str "T"
     || String.eqb str "true" || String.eqb str "TRUE"
     || String.eqb str "True"
  then (true, None)
  else if String.eqb str "0" || String.eqb str "f" || String.eqb str "F"
     || String.eqb str "false" || String.eqb str "FALSE"
     || String.eqb str "False"
  then (false, None)
  else (false, Some {| Func := "ParseBool"; Num := str; Err := ErrSyntax |}).

Definition digit (c : ascii) : option Z :=
  let n := Z.of_nat (nat_of_ascii c) in
  if (48 <=? n) && (n <=? 57) then Some (n - 48) else None.

Definition maxUint64 : Z := 2 ^ 64 - 1.
Definition cutoff : Z := maxUint64 / 10 + 1.

(** The digit loop of [ParseUint(s, 10, 64)]: a byte that is no digit is
    a syntax error, an accumulator that leaves 64 bits is a range error
    (with the maximal value), whichever comes first. *)
Fixpoint parseUintLoop (s : string) (n : Z) : Z * option ErrKind :=
  match s with
  | EmptyString => (n, None)
  | String c s' =>
      match digit c with
      | None => (0, Some ErrSyntax)
      | Some d =>
          if cutoff <=? n then (maxUint64, Some ErrRange)
          else
            let n1 := n * 10 + d in
            if maxUint64 <? n1 then (maxUint64, Some ErrRange)
            else parseUintLoop s' n1
      end
  end.

(** The number that the decimal digits [d] denote when they follow a
    prefix of value [acc]. *)
Fixpoint uintValue (d : Decimal.uint) (acc : Z) : Z :=
  match d with
  | Decimal.Nil => acc
  | Decimal.D0 d' => uintValue d' (acc * 10 + 0)
  | Decimal.D1 d' => uintValue d' (acc * 10 + 1)
  | Decimal.D2 d' => uintValue d' (acc * 10 + 2)
  | Decimal.D3 d' => uintValue d' (acc * 10 + 3)
  | Decimal.D4 d' => uintValue d' (acc * 10 + 4)
  | Decimal.D5 d' => uintValue d' (acc * 10 + 5)
  | Decimal.D6 d' => uintValue d' (acc * 10 + 6)
  | Decimal.D7 d' => uintValue d' (acc * 10 + 7)
  | Decimal.D8 d' => uintValue d' (acc * 10 + 8)
  | Decimal.D9 d' => uintValue d' (acc * 10 + 9)
  end.

(** [ParseInt(s, 10, 0)]: optional sign, digits, then the signed range. *)
Definition ParseInt (s : string) : Z * option ErrKind :=
  match s with
  | EmptyString => (0, Some ErrSyntax)
  | String c0 s1 =>
      let neg := Ascii.eqb c0 "-"%char in
      let body := if neg || Ascii.eqb c0 "+"%char then s1 else s in
      match body with
      | EmptyString => (0, Some ErrSyntax)
      | _ =>
          match parseUintLoop body 0 with
          | (_, Some ErrSyntax) => (0, Some ErrSyntax)
          | (un, _) =>
              if negb neg && (2 ^ 63 <=? un) then (GoInt.MaxInt, Some ErrRange)
              else if neg && (2 ^ 63 <? un) then (GoInt.MinInt, Some ErrRange)
              else (if neg then - un else un, None)
          end
      end
  end.

(** [strconv.Atoi]: [ParseInt(s, 10, 0)] with the error re-labelled.  Its
    fast path for short inputs computes the same result. *)
Definition Atoi (s : string) : Z * option NumError :=
  match ParseInt s with
  | (n, None) => (n, None)
  | (n, Some k) => (n, Some {| Func := "Atoi"; Num := s; Err := k |})
  end.

End strconv.

(** ** Package [os]: the process environment *)

Module os.

(** [os.Getenv]: the value of the variable, empty when it is not set. *)
Definition Getenv (env : gmap string string) (key : string) : string :=
  default "" (env !! key).

End os.

(** ** Package [gocql]: the types [main.go] touches *)

Module gocql.

Record PasswordAuthenticator := { Username : string; Password : string }.

(** Modelled from the spec: the retry policy of the imported package
    [retry], whose source is not part of this repository.  The spec's
    PolicyConfig holds [maxRetries], set once at construction. *)
Record CosmosRetryPolicy := { MaxRetryCount : Z }.

(** [gocql.ClusterConfig], restricted to the fields [init] assigns. *)
Record ClusterConfig := {
  Hosts : list string;
  Port : Z;
  Authenticator : option PasswordAuthenticator;
  SslMinVersion : option Z;
  RetryPolicy : option CosmosRetryPolicy;
  ProtoVersion : Z;
  ConnectTimeout : Z;
  Timeout : Z
}.

Definition Millisecond : Z := 1000000.
Definition Second : Z := 1000 * Millisecond.

(** [gocql.NewCluster]: the driver's defaults; no retry policy is set. *)
Definition NewCluster (hosts : list string) : ClusterConfig :=
  {| Hosts := hosts; Port := 9042; Authenticator := None;
     SslMinVersion := None; RetryPolicy := None; ProtoVersion := 0;
     ConnectTimeout := 600 * Millisecond; Timeout := 600 * Millisecond |}.

(** A session remembers the configuration it was created from. *)
Record Session := { cfg : ClusterConfig }.

(** [gocql.ObservedQuery], restricted to the fields the observer reads.
    An [error] is represented by its message, [nil] by [None]. *)
Record ObservedQuery := { Err : option string; Attempt : Z }.

(** Values bound to the placeholders of a statement. *)
Inductive Value :=
| VString (s : string)
| VInt (n : Z)
| VTime (t : Z).

End gocql.

Module retry.

(** Modelled from the spec: [retry.NewCosmosRetryPolicy(maxRetries)],
    the constructor of the imported retry extension. *)
Definition NewCosmosRetryPolicy (numRetries : Z) : gocql.CosmosRetryPolicy :=
  {| gocql.MaxRetryCount := numRetries |}.

End retry.

(** ** Process start-up: [init] *)

(** [log.Fatal] ends the process; the payload is what was logged. *)
Inductive FatalMsg :=
| MissingEnv
| FatalNumError (e : strconv.NumError)
| FatalConnect (e : string).

Inductive Run (A : Type) :=
| Ok (a : A)
| Fatal (m : FatalMsg).

Arguments Ok {A} a.
Arguments Fatal {A} m.

Definition bindRun {A B : Type} (r : Run A) (k : A -> Run B) : Run B :=
  match r with
  | Ok a => k a
  | Fatal m => Fatal m
  end.

Notation "'do' x <- r ; k" := (bindRun r (fun x => k))
  (at level 10, x name, r at level 100, k at level 200).

(** The package-level variables that [init] leaves behind. *)
Record Globals := {
  cs : gocql.Session;
  insertQuery : string;
  useRetryPolicy : bool
}.

Definition tlsVersionTLS12 : Z := 771.

(** [fmt.Sprintf(insertQueryFormat, keyspace, table)] *)
Definition insertQueryFormat (keyspace table : string) : string :=
  "insert into " +:+ keyspace +:+ "." +:+ table
    +:+ " (id,amount,state,time) values (?,?,?,?)".

Section Init.

(** The network side of [clusterConfig.CreateSession()]: [None] when the
    connection succeeds, the error otherwise. *)
Variable connect : gocql.ClusterConfig -> option string.

Definition CreateSession (c : gocql.ClusterConfig)
  : option gocql.Session * option string :=
  match connect c with
  | Some e => (None, Some e)
  | None => (Some {| gocql.cfg := c |}, None)
  end.

Definition init (env : gmap string string) : Run Globals :=
  let cosmosCassandraContactPoint :=
    os.Getenv env "COSMOSDB_CASSANDRA_CONTACT_POINT" in
  let cosmosCassandraUser := os.Getenv env "COSMOSDB_CASSANDRA_USER" in
  let cosmosCassandraPassword :=
    os.Getenv env "COSMOSDB_CASSANDRA_PASSWORD" in
  let keyspace := os.Getenv env "COSMOSDB_CASSANDRA_KEYSPACE" in
  let table := os.Getenv env "COSMOSDB_CASSANDRA_TABLE" in
  if String.eqb cosmosCassandraContactPoint ""
     || String.eqb cosmosCassandraUser ""
     || String.eqb cosmosCassandraPassword ""
  then Fatal MissingEnv
  else
    let useRetryEnvVar := os.Getenv env "USE_RETRY_POLICY" in
    let useRetryEnvVar :=
      if String.eqb useRetryEnvVar "" then "true" else useRetryEnvVar in
    do useRetry <- match strconv.ParseBool useRetryEnvVar with
                   | (_, Some err) => Fatal (FatalNumError err)
                   | (b, None) => Ok b
                   end;
    let c := gocql.NewCluster [cosmosCassandraContactPoint] in
    let auth := {| gocql.Username := cosmosCassandraUser;
                   gocql.Password := cosmosCassandraPassword |} in
    do policy <- (if useRetry : bool then
                 let maxRetries := os.Getenv env "MAX_RETRIES" in
                 let maxRetries :=
                   if String.eqb maxRetries "" then "5" else maxRetries in
                 match strconv.Atoi maxRetries with
                 | (_, Some err) => Fatal (FatalNumError err)
                 | (numRetries, None) =>
                     Ok (Some (retry.NewCosmosRetryPolicy numRetries))
                 end
               else Ok (gocql.RetryPolicy c));
    let clusterConfig :=
      {| gocql.Hosts := gocql.Hosts c;
         gocql.Port := 10350;
         gocql.Authenticator := Some auth;
         gocql.SslMinVersion := Some tlsVersionTLS12;
         gocql.RetryPolicy := policy;
         gocql.ProtoVersion := 4;
         gocql.ConnectTimeout := 3 * gocql.Second;
         gocql.Timeout := 3 * gocql.Second |} in
    match CreateSession clusterConfig with
    | (Some session, None) =>
        Ok {| cs := session;
              insertQuery := insertQueryFormat keyspace table;
              useRetryPolicy := useRetry |}
    | (_, Some err) => Fatal (FatalConnect err)
    | (None, None) => Fatal (FatalConnect "")
    end.

End Init.

(** The three variables [init] insists on are set. *)
Definition mandatorySet (env : gmap string string) : Prop :=
  os.Getenv env "COSMOSDB_CASSANDRA_CONTACT_POINT" <> ""
  /\ os.Getenv env "COSMOSDB_CASSANDRA_USER" <> ""
  /\ os.Getenv env "COSMOSDB_CASSANDRA_PASSWORD" <> "".

(** The text [init] hands to [strconv.ParseBool] (lines 50-53). *)
Definition retryFlag (env : gmap string string) : string :=
  let useRetryEnvVar := os.Getenv env "USE_RETRY_POLICY" in
  if String.eqb useRetryEnvVar "" then "true" else useRetryEnvVar.

(** The text [init] hands to [strconv.Atoi] (lines 68-71). *)
Definition maxRetriesText (env : gmap string string) : string :=
  let maxRetries := os.Getenv env "MAX_RETRIES" in
  if String.eqb maxRetries "" then "5" else maxRetries.

(** ** The observer: [OrderInsertErrorLogger] *)

Record OrderInsertErrorLogger := { orderID : string }.

(** [log.Printf("Query error for order ID %s\n%v", l.orderID, err)] *)
Definition queryErrorLine (id err : string) : string :=
  "Query error for order ID " +:+ id +:+ fmt.LF +:+ err.

(** [log.Printf("Order %s is being retried. attempt #%v", l.orderID, oq.Attempt)] *)
Definition retriedLine (id : string) (attempt : Z) : string :=
  "Order " +:+ id +:+ " is being retried. attempt #" +:+ fmt.verb_v_int attempt.

(** [ObserveQuery]: the records handed to the standard logger, in order.
    The logger's own date prefix and line terminator are left out. *)
Definition ObserveQuery (l : OrderInsertErrorLogger) (oq : gocql.ObservedQuery)
  : list string :=
  match gocql.Err oq with
  | Some err =>
      queryErrorLine (orderID l) err
        :: (if 0 <? gocql.Attempt oq
            then [retriedLine (orderID l) (gocql.Attempt oq)]
            else [])
  | None => []
  end.

(** ** The handler: [Add] *)

Module http.

Definition StatusOK : Z := 200.
Definition StatusRequestTimeout : Z := 408.
Definition StatusTooManyRequests : Z := 429.
Definition StatusInternalServerError : Z := 500.

(** What a handler did to its [http.ResponseWriter]. *)
Record ResponseWriter := { wroteHeader : option Z; written : string }.

Definition fresh : ResponseWriter := {| wroteHeader := None; written := "" |}.

(** [http.Error(w, error, code)]: [WriteHeader(code)], then the message
    and a newline.  A second [WriteHeader] is ignored by the server. *)
Definition Error (w : ResponseWriter) (error : string) (code : Z)
  : ResponseWriter :=
  {| wroteHeader := Some (default code (wroteHeader w));
     written := written w +:+ error +:+ fmt.LF |}.

(** The status line the server sends once the handler has returned: 200
    when [WriteHeader] was never called. *)
Definition servedStatus (w : ResponseWriter) : Z :=
  default StatusOK (wroteHeader w).

End http.

Definition fixedLocation : string := "Seattle".

(** A [*gocql.Query] as built by [Query(..).Bind(..).Observer(..)]. *)
Record Query := {
  stmt : string;
  values : list gocql.Value;
  observer : option OrderInsertErrorLogger
}.

(** What the driver did for one [Exec]: the observations it delivered, one
    per attempt and in order, and the error it finally returned. *)
Record ExecRun := {
  attempts : list gocql.ObservedQuery;
  result : option string
}.

(** The inputs of one request that the handler does not control. *)
Record Request := {
  GenerateUUID : string * option string;
  Intn : Z -> Z;
  Now : Z
}.

(** Everything one call of [Add] does. *)
Record Served := {
  executed : Query;
  logged : list string;
  response : http.ResponseWriter
}.

(** The status chosen at lines 122-127 for a non-nil [err]. *)
Definition respStatus (errMsg : string) : Z :=
  if strings.Contains errMsg "TooManyRequests (429)"
  then http.StatusTooManyRequests
  else if strings.Contains errMsg "timeout"
  then http.StatusRequestTimeout
  else http.StatusInternalServerError.

Section Handler.

(** The driver behind [Query.Exec]. *)
Variable driver : gocql.Session -> Query -> ExecRun.

(** [Exec]: the driver runs the query and calls the query's observer
    after each attempt. *)
Definition Exec (s : gocql.Session) (q : Query) : list string * option string :=
  let r := driver s q in
  (match observer q with
   | Some l => flat_map (ObserveQuery l) (attempts r)
   | None => []
   end, result r).

Definition Add (g : Globals) (rw : http.ResponseWriter) (req : Request)
  : Served :=
  let '(rid, _) := GenerateUUID req in
  let q := {| stmt := insertQuery g;
              values := [gocql.VString rid;
                         gocql.VInt (GoInt.add (Intn req 200) 50);
                         gocql.VString fixedLocation;
                         gocql.VTime (Now req)];
              observer := Some {| orderID := rid |} |} in
  let '(obslog, err) := Exec (cs g) q in
  match err with
  | Some e =>
      {| executed := q; logged := obslog;
         response := http.Error rw e (respStatus e) |}
  | None =>
      {| executed := q;
         logged := (obslog ++ ["Added order ID " +:+ rid +:+ fmt.LF])%list;
         response := rw |}
  end.

End Handler.

(** ** The attempt loop and the retry policy *)

Module Orchestrator.

(** Modelled from the spec: the error kinds of section 3.  [Throttled]
    may carry the wait suggested by the server. *)
Inductive ErrorKind :=
| Throttled (retryAfter : option Z)
| Timeout
| Unavailable
| Other.

(** Modelled from the spec: the operation of section 3 (the payload plays
    no part in the attempt loop). *)
Record Operation := { correlationId : string; idempotent : bool }.

(** Modelled from the spec: the decision record of section 3. *)
Record RetryDecision := { shouldRetry : bool; delay : Z }.

(** Modelled from the spec: the result of [execute], section 4.4. *)
Inductive Result :=
| Success
| TerminalError (kind : ErrorKind) (rawError : string) (attemptsMade : Z).

(** What the loop does, in order: issue attempt [i], hand an outcome to
    the observer, ask the policy, sleep. *)
Inductive Event :=
| EvIssue (i : Z)
| EvObserve (id : string) (i : Z) (outcome : option (ErrorKind * string))
| EvDecide (kind : ErrorKind) (i : Z)
| EvSleep (d : Z).

Definition isThrottled (k : ErrorKind) : bool :=
  match k with Throttled _ => true | _ => false end.

(** The server's hint, when there is one, is not negative. *)
Definition hintNonneg (k : ErrorKind) : Prop :=
  match k with Throttled (Some d) => 0 <= d | _ => True end.

Section Loop.

(** Section 4.1 fixes the order of the classification rules and leaves
    the tests to the driver boundary. *)
Variable classify : string -> ErrorKind.

(** The tunables of the backoff curve and the jitter drawn for an
    attempt (section 4.2, section 9). *)
Variables baseDelay maxDelay : Z.
Variable jitter : Z -> Z.

(** The retry policy; [None] when the feature flag is off. *)
Variable policy : option gocql.CosmosRetryPolicy.

(** Driver boundary: the outcome of attempt [i], [None] on success. *)
Variable issue : Z -> option string.

Variable operation : Operation.

(** Modelled from the spec: base delay times 2^attemptIndex, capped,
    plus jitter. *)
Definition backoff (attemptIndex : Z) : Z :=
  Z.min (baseDelay * 2 ^ attemptIndex) maxDelay + jitter attemptIndex.

Definition stop : RetryDecision := {| shouldRetry := false; delay := 0 |}.

(** Modelled from the spec: [decide] of section 4.2. *)
Definition decide (p : gocql.CosmosRetryPolicy) (kind : ErrorKind)
  (attemptIndex : Z) (op : Operation) : RetryDecision :=
  if gocql.MaxRetryCount p <=? attemptIndex then stop
  else
    match kind with
    | Throttled (Some retryAfter) =>
        {| shouldRetry := true; delay := retryAfter |}
    | Throttled None =>
        {| shouldRetry := true; delay := backoff attemptIndex |}
    | Timeout =>
        if idempotent op
        then {| shouldRetry := true; delay := backoff attemptIndex |}
        else stop
    | Unavailable =>
        {| shouldRetry := true; delay := backoff attemptIndex |}
    | Other => stop
    end.

(** Modelled from the spec: the state machine of section 4.4, started
    in [Attempting index].  [None] means the fuel ran out before a
    terminal state. *)
Fixpoint run (fuel : nat) (index : Z) : option Result * list Event :=
  match fuel with
  | O => (None, [])
  | S fuel' =>
      let id := correlationId operation in
      match issue index with
      | None => (Some Success, [EvIssue index; EvObserve id index None])
      | Some raw =>
          let kind := classify raw in
          let seen := [EvIssue index;
                       EvObserve id index (Some (kind, raw))] in
          match policy with
          | None => (Some (TerminalError kind raw (index + 1)), seen)
          | Some p =>
              let d := decide p kind index operation in
              if shouldRetry d
              then
                let '(r, rest) := run fuel' (index + 1) in
                (r, (seen ++ [EvDecide kind index; EvSleep (delay d)] ++ rest)%list)
              else
                (Some (TerminalError kind raw (index + 1)),
                 (seen ++ [EvDecide kind index])%list)
          end
      end
  end.

(** Fuel that is enough: one more step than the policy allows retries. *)
Definition budget : nat :=
  match policy with
  | None => 1
  | Some p => S (Z.to_nat (gocql.MaxRetryCount p))
  end.

(** Modelled from the spec: [execute] of section 4.4, the machine started
    in [Attempting 0]. *)
Definition execute : option Result * list Event := run budget 0.

End Loop.

(** Indices of the attempts issued, in order. *)
Definition issued (tr : list Event) : list Z :=
  flat_map (fun e => match e with EvIssue i => [i] | _ => [] end) tr.

(** What the observer received, in order. *)
Definition observed (tr : list Event)
  : list (string * Z * option (ErrorKind * string)) :=
  flat_map (fun e => match e with
                     | EvObserve id i o => [(id, i, o)]
                     | _ => []
                     end) tr.

(** The [n] consecutive indices that start at [i]. *)
Definition indicesFrom (i : Z) (n : nat) : list Z :=
  map (fun k => i + Z.of_nat k) (seq 0 n).

(** The outcome the observer is due for attempt [i]. *)
Definition outcomeAt (classify : string -> ErrorKind)
  (issue : Z -> option string) (i : Z) : option (ErrorKind * string) :=
  option_map (fun raw => (classify raw, raw)) (issue i).

Definition decisions (tr : list Event) : list (ErrorKind * Z) :=
  flat_map (fun e => match e with EvDecide k i => [(k, i)] | _ => [] end) tr.

(** The observation as the driver presents it to a [gocql] observer. *)
Definition toObservedQuery (o : string * Z * option (ErrorKind * string))
  : gocql.ObservedQuery :=
  let '(_, i, out) := o in
  {| gocql.Err := option_map snd out; gocql.Attempt := i |}.

(** The loop as the driver behind [Query.Exec]: inserts keyed by a fresh
    identifier are idempotent. *)
Definition driver (classify : string -> ErrorKind)
  (baseDelay maxDelay : Z) (jitter : Z -> Z) (issue : Z -> option string)
  (s : gocql.Session) (q : Query) : ExecRun :=
  let id := match observer q with Some l => orderID l | None => "" end in
  let '(r, tr) :=
    execute classify baseDelay maxDelay jitter
      (gocql.RetryPolicy (gocql.cfg s)) issue
      {| correlationId := id; idempotent := true |} in
  {| attempts := map toObservedQuery (observed tr);
     result := match r with
               | Some (TerminalError _ raw _) => Some raw
               | _ => None
               end |}.

End Orchestrator.

(** ** The handler's classification, with the spec's names *)

(** The tests of lines 123-125, labelled with the spec's error kinds. *)
Definition classifyByMessage (raw : string) : Orchestrator.ErrorKind :=
  if strings.Contains raw "TooManyRequests (429)"
  then Orchestrator.Throttled None
  else if strings.Contains raw "timeout"
  then Orchestrator.Timeout
  else Orchestrator.Other.

(** Section 4.1 of the spec: the status an HTTP caller sees per kind. *)
Definition statusOfKind (k : Orchestrator.ErrorKind) : Z :=
  match k with
  | Orchestrator.Throttled _ => 429
  | Orchestrator.Timeout => 408
  | Orchestrator.Unavailable | Orchestrator.Other => 500
  end.

(** Sample inputs used to exercise the theorems below. *)
Definition sampleGlobals : Globals :=
  {| cs := {| gocql.cfg := gocql.NewCluster ["contact"] |};
     insertQuery := insertQueryFormat "ks" "orders";
     useRetryPolicy := false |}.

Definition sampleRequest : Request :=
  {| GenerateUUID := ("7f4e", None); Intn := fun n => 199 mod n; Now := 1700000000 |}.

Definition quietDriver (_ : gocql.Session) (_ : Query) : ExecRun :=
  {| attempts := []; result := None |}.

Definition failingDriver (msg : string) (_ : gocql.Session) (_ : Query)
  : ExecRun :=
  {| attempts := [{| gocql.Err := Some msg; gocql.Attempt := 0 |}];
     result := Some msg |}.

Definition sampleEnv : gmap string string :=
  <["COSMOSDB_CASSANDRA_CONTACT_POINT" := "acct.cassandra.cosmos.azure.com"]>
  (<["COSMOSDB_CASSANDRA_USER" := "acct"]>
  (<["COSMOSDB_CASSANDRA_PASSWORD" := "secret"]> ∅)).

Definition alwaysThrottled (_ : Z) : option string :=
  Some "TooManyRequests (429)".

Definition reachable (_ : gocql.ClusterConfig) : option string := None.

(** Throttled at attempts 0 and 1, accepted at attempt 2. *)
Definition throttledTwice (i : Z) : option string :=
  if i <? 2 then Some "TooManyRequests (429)" else None.

Definition sampleOperation : Orchestrator.Operation :=
  {| Orchestrator.correlationId := "7f4e"; Orchestrator.idempotent := true |}.

(** ** Measures used to state what the handler and the observer do *)

(** The number of [?] placeholders of a statement. *)
Fixpoint placeholders (s : string) : nat :=
  match s with
  | EmptyString => 0%nat
  | String c s' =>
      ((if Ascii.eqb c "?"%char then 1 else 0) + placeholders s')%nat
  end.

(** The attempt ended with an error. *)
Definition isFailure (oq : gocql.ObservedQuery) : bool :=
  match gocql.Err oq with Some _ => true | None => false end.

(** The attempt ended with an error and was not the first one. *)
Definition isRetriedFailure (oq : gocql.ObservedQuery) : bool :=
  isFailure oq && (0 <? gocql.Attempt oq).

(** The record [Add] logs after a successful insert:
    [log.Println("Added order ID", rid)]. *)
Definition addedLine (rid : string) : string :=
  "Added order ID " +:+ rid +:+ fmt.LF.

(** A driver that reports two failed attempts and gives up. *)
Definition givingUpDriver (msg : string) (_ : gocql.Session) (_ : Query)
  : ExecRun :=
  {| attempts := [{| gocql.Err := Some msg; gocql.Attempt := 0 |};
                  {| gocql.Err := Some msg; gocql.Attempt := 1 |}];
     result := Some msg |}.

Definition unreachable (_ : gocql.ClusterConfig) : option string :=
  Some "gocql: unable to create session".

(** A driver whose table keys rows by a uuid column: it refuses a first
    value that is the empty text and accepts every other insert. *)
Definition strictDriver (_ : gocql.Session) (q : Query) : ExecRun :=
  match values q with
  | gocql.VString EmptyString :: _ =>
      {| attempts :=
           [{| gocql.Err := Some "can not marshal string to uuid: invalid UUID";
               gocql.Attempt := 0 |}];
         result := Some "can not marshal string to uuid: invalid UUID" |}
  | _ =>
      {| attempts := [{| gocql.Err := None; gocql.Attempt := 0 |}];
         result := None |}
  end.

(** * Properties *)

(** ** Arithmetic and strings *)

Lemma wrap_small (x : Z) : GoInt.InRange x -> GoInt.wrap x = x.
Proof.
  unfold GoInt.InRange, GoInt.MinInt, GoInt.MaxInt, GoInt.wrap.
  intros Hx. rewrite Z.mod_small; lia.
Qed.

Lemma append_empty (b : string) : "" +:+ b = b.
Proof. reflexivity. Qed.

Lemma append_cons (x : ascii) (a b : string) :
  String x a +:+ b = String x (a +:+ b).
Proof. reflexivity. Qed.

Lemma append_nil_r (s : string) : s +:+ "" = s.
Proof.
  induction s as [|x s IH]; [reflexivity|].
  rewrite append_cons, IH. reflexivity.
Qed.

Lemma append_assoc (a b c : string) : (a +:+ b) +:+ c = a +:+ b +:+ c.
Proof.
  induction a as [|x a IH]; [reflexivity|].
  rewrite !append_cons, IH. reflexivity.
Qed.

Lemma prefix_app (b c : string) : String.prefix b (b +:+ c) = true.
Proof.
  induction b as [|x b IH].
  - rewrite append_empty. destruct c; reflexivity.
  - rewrite append_cons. simpl.
    destruct (ascii_dec x x); [exact IH | congruence].
Qed.

Lemma index_cons (b : string) (x : ascii) (s : string) :
  String.index 0 b (String x s)
  = if String.prefix b (String x s) then Some 0%nat
    else match String.index 0 b s with
         | Some n => Some (S n)
         | None => None
         end.
Proof. reflexivity. Qed.

Lemma index_app_mid (a b c : string) :
  String.index 0 b (a +:+ b +:+ c) <> None.
Proof.
  induction a as [|x a IH].
  - rewrite append_empty.
    pose proof (prefix_app b c) as Hp.
    destruct (b +:+ c) eqn:Hbc.
    + destruct b; [simpl; congruence | discriminate Hbc].
    + rewrite index_cons, Hp. congruence.
  - rewrite append_cons, index_cons.
    destruct (String.prefix b (String x (a +:+ b +:+ c))); [congruence|].
    destruct (String.index 0 b (a +:+ b +:+ c)); congruence.
Qed.

Lemma Contains_app_mid (a b c : string) :
  strings.Contains (a +:+ b +:+ c) b = true.
Proof.
  unfold strings.Contains, strings.Index.
  pose proof (index_app_mid a b c) as H.
  destruct (String.index 0 b (a +:+ b +:+ c)); [|congruence].
  apply Z.geb_le. lia.
Qed.

Lemma Contains_app_end (a b : string) : strings.Contains (a +:+ b) b = true.
Proof.
  rewrite <- (append_nil_r b) at 1. apply Contains_app_mid.
Qed.

(** ** The handler *)

Lemma respStatus_kind (e : string) :
  respStatus e = statusOfKind (classifyByMessage e).
Proof.
  unfold respStatus, classifyByMessage.
  destruct (strings.Contains e "TooManyRequests (429)"); [reflexivity|].
  destruct (strings.Contains e "timeout"); reflexivity.
Qed.

Lemma Add_executed (driver : gocql.Session -> Query -> ExecRun)
  (g : Globals) (rw : http.ResponseWriter) (req : Request) :
  executed (Add driver g rw req)
  = {| stmt := insertQuery g;
       values := [gocql.VString (fst (GenerateUUID req));
                  gocql.VInt (GoInt.add (Intn req 200) 50);
                  gocql.VString fixedLocation;
                  gocql.VTime (Now req)];
       observer := Some {| orderID := fst (GenerateUUID req) |} |}.
Proof.
  unfold Add, Exec. destruct (GenerateUUID req) as [rid uerr]. simpl.
  destruct (result _); reflexivity.
Qed.

Lemma Add_response (driver : gocql.Session -> Query -> ExecRun)
  (g : Globals) (rw : http.ResponseWriter) (req : Request) :
  response (Add driver g rw req)
  = match result (driver (cs g) (executed (Add driver g rw req))) with
    | Some e => http.Error rw e (respStatus e)
    | None => rw
    end.
Proof.
  rewrite Add_executed.
  unfold Add, Exec. destruct (GenerateUUID req) as [rid uerr]. simpl.
  destruct (result _); reflexivity.
Qed.

Lemma Add_logged (driver : gocql.Session -> Query -> ExecRun)
  (g : Globals) (rw : http.ResponseWriter) (req : Request) :
  let q := executed (Add driver g rw req) in
  let rid := fst (GenerateUUID req) in
  let seen := flat_map (ObserveQuery {| orderID := rid |})
                (attempts (driver (cs g) q)) in
  logged (Add driver g rw req)
  = match result (driver (cs g) q) with
    | Some _ => seen
    | None => (seen ++ ["Added order ID " +:+ rid +:+ fmt.LF])%list
    end.
Proof.
  cbv zeta. rewrite Add_executed.
  unfold Add, Exec. destruct (GenerateUUID req) as [rid uerr]. simpl.
  destruct (result _); reflexivity.
Qed.

(** C2: a terminal error leaves the handler with status 429 when its
    message passes the rate-limit test, 408 when it passes only the timeout
    test and 500 otherwise, which is the spec's status of the kind the
    message is classified as; a successful write is served a 2xx status. *)
Theorem Add_status_by_classification
  (driver : gocql.Session -> Query -> ExecRun) (g : Globals) (req : Request) :
  let served := Add driver g http.fresh req in
  let status := http.servedStatus (response served) in
  match result (driver (cs g) (executed served)) with
  | Some e =>
      http.written (response served) = e +:+ fmt.LF
      /\ status = statusOfKind (classifyByMessage e)
      /\ (strings.Contains e "TooManyRequests (429)" = true -> status = 429)
      /\ (strings.Contains e "TooManyRequests (429)" = false ->
          strings.Contains e "timeout" = true -> status = 408)
      /\ (strings.Contains e "TooManyRequests (429)" = false ->
          strings.Contains e "timeout" = false -> status = 500)
  | None => 200 <= status <= 299
  end.
Proof.
  intros served status. subst served status.
  rewrite Add_response.
  destruct (result _) as [e|]; simpl.
  - unfold http.servedStatus; simpl.
    split; [reflexivity|]. split; [apply respStatus_kind|].
    unfold respStatus.
    repeat split; intros; repeat match goal with
      | H : strings.Contains _ _ = _ |- _ => rewrite H; clear H end;
      reflexivity.
  - unfold http.servedStatus, http.StatusOK; simpl. lia.
Qed.

(** C6: when a message passes both the rate-limit test and the timeout
    test, the rate-limit test is taken first: the status is 429, not 408,
    and the kind is Throttled. *)
Theorem respStatus_rate_limit_first (e : string) :
  strings.Contains e "TooManyRequests (429)" = true ->
  strings.Contains e "timeout" = true ->
  respStatus e = http.StatusTooManyRequests
  /\ respStatus e <> http.StatusRequestTimeout
  /\ classifyByMessage e = Orchestrator.Throttled None
  /\ forall driver g req,
       result (driver (cs g) (executed (Add driver g http.fresh req))) = Some e ->
       http.servedStatus (response (Add driver g http.fresh req)) = 429.
Proof.
  intros Hrate Htime. unfold respStatus, classifyByMessage. rewrite Hrate.
  split; [reflexivity|]. split; [discriminate|]. split; [reflexivity|].
  intros driver g req Hres. rewrite Add_response, Hres.
  unfold http.servedStatus, respStatus. simpl. rewrite Hrate. reflexivity.
Qed.

Lemma respStatus_rate_limit_first_witness :
  let e := "TooManyRequests (429): request timeout" in
  strings.Contains e "TooManyRequests (429)" = true
  /\ strings.Contains e "timeout" = true
  /\ respStatus e = http.StatusTooManyRequests
  /\ http.servedStatus
       (response (Add (failingDriver e) sampleGlobals http.fresh sampleRequest))
     = 429.
Proof.
  intros e.
  assert (Hrate : strings.Contains e "TooManyRequests (429)" = true)
    by reflexivity.
  assert (Htime : strings.Contains e "timeout" = true) by reflexivity.
  destruct (respStatus_rate_limit_first e Hrate Htime) as (H1 & _ & _ & H4).
  split; [exact Hrate|]. split; [exact Htime|]. split; [exact H1|].
  apply H4. reflexivity.
Defined.

(** C7: the classification is total and single-valued.  Every message gets
    exactly one kind and exactly one of the statuses 429, 408 and 500, and
    a message that passes neither test gets Other and 500. *)
Theorem respStatus_total (e : string) :
  (exists k, classifyByMessage e = k
             /\ forall k', classifyByMessage e = k' -> k' = k)
  /\ (respStatus e = 429 /\ classifyByMessage e = Orchestrator.Throttled None
      \/ respStatus e = 408 /\ classifyByMessage e = Orchestrator.Timeout
      \/ respStatus e = 500 /\ classifyByMessage e = Orchestrator.Other)
  /\ (strings.Contains e "TooManyRequests (429)" = false ->
      strings.Contains e "timeout" = false ->
      classifyByMessage e = Orchestrator.Other
      /\ respStatus e = http.StatusInternalServerError).
Proof.
  split; [exists (classifyByMessage e); split; congruence|].
  unfold respStatus, classifyByMessage.
  destruct (strings.Contains e "TooManyRequests (429)");
    destruct (strings.Contains e "timeout");
    (split; [auto | intros; try discriminate; auto]).
Qed.

Lemma respStatus_total_witness :
  classifyByMessage "no hosts available in the pool" = Orchestrator.Other
  /\ respStatus "no hosts available in the pool" = 500.
Proof.
  destruct (respStatus_total "no hosts available in the pool") as (_ & _ & H).
  apply H; reflexivity.
Defined.

(** C9: whatever the request and the driver, the insert binds, as second
    value, the generator's outcome in [0, 200) plus 50, an integer between
    50 and 249, and, as third value, the constant Seattle. *)
Theorem Add_binds_amount_and_location
  (driver : gocql.Session -> Query -> ExecRun) (g : Globals)
  (rw : http.ResponseWriter) (req : Request) :
  0 <= Intn req 200 < 200 ->
  exists amount,
    values (executed (Add driver g rw req))
    = [gocql.VString (fst (GenerateUUID req)); gocql.VInt amount;
       gocql.VString "Seattle"; gocql.VTime (Now req)]
    /\ amount = Intn req 200 + 50
    /\ 50 <= amount <= 249.
Proof.
  intros Hr. exists (GoInt.add (Intn req 200) 50).
  rewrite Add_executed. simpl.
  unfold GoInt.add. rewrite wrap_small.
  - repeat split; lia.
  - unfold GoInt.InRange, GoInt.MinInt, GoInt.MaxInt. lia.
Qed.

Lemma Add_binds_amount_and_location_witness :
  0 <= Intn sampleRequest 200 < 200
  /\ exists amount,
       values (executed (Add quietDriver sampleGlobals http.fresh sampleRequest))
       = [gocql.VString "7f4e"; gocql.VInt amount;
          gocql.VString "Seattle"; gocql.VTime 1700000000]
       /\ amount = 249
       /\ 50 <= amount <= 249.
Proof.
  assert (Hr : 0 <= Intn sampleRequest 200 < 200) by (vm_compute; split; congruence).
  split; [exact Hr|].
  destruct (Add_binds_amount_and_location quietDriver sampleGlobals
              http.fresh sampleRequest Hr) as (amount & Hv & Ha & Hb).
  exists amount. repeat split; try assumption; try apply Hb.
Defined.

(** C10, as the claim states it, fails.  The generator returns the empty
    identifier together with its error; the handler binds it all the same,
    and under a driver that refuses an empty identifier the request is
    answered 500, where a generated identifier gives 200. *)
Lemma uuid_failure_can_be_rejected :
  let failed :=
    {| GenerateUUID := ("", Some "failed to read random bytes");
       Intn := Intn sampleRequest; Now := Now sampleRequest |} in
  GenerateUUID sampleRequest = ("7f4e", None)
  /\ http.servedStatus
       (response (Add strictDriver sampleGlobals http.fresh sampleRequest))
     = 200
  /\ values (executed (Add strictDriver sampleGlobals http.fresh failed))
     = [gocql.VString ""; gocql.VInt 249; gocql.VString "Seattle";
        gocql.VTime 1700000000]
  /\ http.servedStatus
       (response (Add strictDriver sampleGlobals http.fresh failed))
     = 500.
Proof. cbv zeta. repeat split; reflexivity. Qed.

(** C10, amended: the error of the identifier generator is dropped and the
    handler itself rejects nothing on its account.  With the same
    identifier the handler behaves the same whether or not the generator
    reported an error: the insert is run by the driver with that
    identifier, empty or not, as first value and as the observer's key,
    and the response depends on the driver's result for that insert
    only. *)
Theorem Add_ignores_uuid_error
  (driver : gocql.Session -> Query -> ExecRun) (g : Globals)
  (rw : http.ResponseWriter) (rid : string) (uerr : option string)
  (intn : Z -> Z) (now : Z) :
  let req := fun e => {| GenerateUUID := (rid, e); Intn := intn; Now := now |} in
  let served := Add driver g rw (req uerr) in
  served = Add driver g rw (req None)
  /\ (exists rest, values (executed served) = gocql.VString rid :: rest)
  /\ observer (executed served) = Some {| orderID := rid |}
  /\ response served
     = match result (driver (cs g) (executed served)) with
       | Some e => http.Error rw e (respStatus e)
       | None => rw
       end.
Proof.
  intros req served. subst served req.
  split; [reflexivity|].
  split; [rewrite Add_executed; simpl; eauto|].
  split; [rewrite Add_executed; reflexivity|].
  apply Add_response.
Qed.

(** ** The observer *)

Lemma queryErrorLine_has_id (id err : string) :
  strings.Contains (queryErrorLine id err) id = true.
Proof. apply Contains_app_mid. Qed.

Lemma queryErrorLine_has_err (id err : string) :
  strings.Contains (queryErrorLine id err) err = true.
Proof.
  unfold queryErrorLine.
  rewrite <- (append_assoc id), <- append_assoc.
  apply Contains_app_end.
Qed.

Lemma retriedLine_has_id (id : string) (attempt : Z) :
  strings.Contains (retriedLine id attempt) id = true.
Proof. apply Contains_app_mid. Qed.

Lemma retriedLine_has_attempt (id : string) (attempt : Z) :
  strings.Contains (retriedLine id attempt) (fmt.verb_v_int attempt) = true.
Proof.
  unfold retriedLine.
  rewrite <- (append_assoc id), <- append_assoc.
  apply Contains_app_end.
Qed.

Lemma retriedLine_says_retried (id : string) (attempt : Z) :
  strings.Contains (retriedLine id attempt) "is being retried" = true.
Proof.
  unfold retriedLine.
  change (" is being retried. attempt #" +:+ fmt.verb_v_int attempt)
    with (" " +:+ "is being retried"
            +:+ ". attempt #" +:+ fmt.verb_v_int attempt).
  rewrite <- (append_assoc id " "), <- (append_assoc "Order ").
  apply Contains_app_mid.
Qed.

(** C8: on a failed attempt the observer logs, first, the line
    Query error for order ID <id>, a line feed and the error's text, which
    contains the correlation identifier and the error detail; it appends
    the note Order <id> is being retried. attempt #<n>, which names the
    order, says that it is being retried and carries the attempt index n,
    exactly when n is greater than 0, and nothing else. *)
Theorem ObserveQuery_failed_attempt_log
  (l : OrderInsertErrorLogger) (oq : gocql.ObservedQuery) (err : string) :
  gocql.Err oq = Some err ->
  exists line note,
    line = "Query error for order ID " +:+ orderID l +:+ fmt.LF +:+ err
    /\ note = "Order " +:+ orderID l +:+ " is being retried. attempt #"
                +:+ fmt.verb_v_int (gocql.Attempt oq)
    /\ strings.Contains line (orderID l) = true
    /\ strings.Contains line err = true
    /\ strings.Contains note (orderID l) = true
    /\ strings.Contains note "is being retried" = true
    /\ strings.Contains note (fmt.verb_v_int (gocql.Attempt oq)) = true
    /\ note <> line
    /\ (0 < gocql.Attempt oq -> ObserveQuery l oq = [line; note])
    /\ (~ 0 < gocql.Attempt oq -> ObserveQuery l oq = [line])
    /\ (In note (ObserveQuery l oq) <-> 0 < gocql.Attempt oq).
Proof.
  intros Herr.
  exists (queryErrorLine (orderID l) err),
         (retriedLine (orderID l) (gocql.Attempt oq)).
  assert (Hdiff : retriedLine (orderID l) (gocql.Attempt oq)
                  <> queryErrorLine (orderID l) err).
  { unfold retriedLine, queryErrorLine. rewrite !append_cons.
    intros Heq. discriminate Heq. }
  split; [reflexivity|]. split; [reflexivity|].
  split; [apply queryErrorLine_has_id|].
  split; [apply queryErrorLine_has_err|].
  split; [apply retriedLine_has_id|].
  split; [apply retriedLine_says_retried|].
  split; [apply retriedLine_has_attempt|].
  split; [exact Hdiff|].
  unfold ObserveQuery. rewrite Herr.
  destruct (0 <? gocql.Attempt oq) eqn:Hpos.
  - apply Z.ltb_lt in Hpos.
    split; [reflexivity|]. split; [intros Hn; contradiction|].
    split; [intros _; exact Hpos | intros _; right; left; reflexivity].
  - apply Z.ltb_ge in Hpos.
    split; [intros Hp; lia|]. split; [reflexivity|].
    split; [|intros Hp; lia].
    intros [Heq | []]. exfalso. apply Hdiff. symmetry. exact Heq.
Qed.

Lemma ObserveQuery_failed_attempt_log_witness :
  let l := {| orderID := "7f4e" |} in
  let oq := {| gocql.Err := Some "TooManyRequests (429)"; gocql.Attempt := 2 |} in
  gocql.Err oq = Some "TooManyRequests (429)"
  /\ ObserveQuery l oq
     = ["Query error for order ID 7f4e" +:+ fmt.LF +:+ "TooManyRequests (429)";
        "Order 7f4e is being retried. attempt #2"].
Proof.
  intros l oq.
  assert (Herr : gocql.Err oq = Some "TooManyRequests (429)") by reflexivity.
  split; [exact Herr|].
  destruct (ObserveQuery_failed_attempt_log l oq _ Herr)
    as (line & note & Hline & Hnote & _ & _ & _ & _ & _ & _ & Hretried & _).
  rewrite Hretried; [rewrite Hline, Hnote; reflexivity | simpl; lia].
Defined.

(** C3, as the claim states it, fails.  An operation that succeeds at its
    first attempt is observed once and logs nothing, and a failed attempt
    with index 1 logs two records. *)
Lemma observer_silent_on_success :
  let l := {| orderID := "7f4e" |} in
  let tr := snd (Orchestrator.execute classifyByMessage 1 8 (fun _ => 0)
                   None (fun _ => None) sampleOperation) in
  Orchestrator.issued tr = [0]
  /\ List.length (Orchestrator.observed tr) = 1%nat
  /\ flat_map (ObserveQuery l)
       (map Orchestrator.toObservedQuery (Orchestrator.observed tr)) = []
  /\ ~ (forall oq, List.length (ObserveQuery l oq) = 1%nat)
  /\ List.length
       (ObserveQuery l {| gocql.Err := Some "timeout"; gocql.Attempt := 1 |})
     = 2%nat.
Proof.
  cbv zeta. split; [reflexivity|]. split; [reflexivity|].
  split; [reflexivity|]. split; [|reflexivity].
  intros H. specialize (H {| gocql.Err := None; gocql.Attempt := 0 |}).
  discriminate H.
Qed.

(** ** The attempt loop *)

Lemma indicesFrom_S (i : Z) (n : nat) :
  Orchestrator.indicesFrom i (S n) = i :: Orchestrator.indicesFrom (i + 1) n.
Proof.
  unfold Orchestrator.indicesFrom. simpl. f_equal; [lia|].
  rewrite <- seq_shift, map_map. apply map_ext. intros k. lia.
Qed.

Lemma indicesFrom_length (i : Z) (n : nat) :
  List.length (Orchestrator.indicesFrom i n) = n.
Proof.
  unfold Orchestrator.indicesFrom. rewrite length_map. apply length_seq.
Qed.

(** Closes the side goals of a step that ends the loop. *)
Ltac one_attempt :=
  solve [ unfold Orchestrator.indicesFrom; simpl; f_equal; lia
        | let H := fresh in intros ? ? ? H; inversion H; lia ].

Section LoopFacts.

Import Orchestrator.

Variable classify : string -> ErrorKind.
Variables baseDelay maxDelay : Z.
Variable jitter : Z -> Z.
Variable issue : Z -> option string.
Variable operation : Operation.

Abbreviation loop policy :=
  (run classify baseDelay maxDelay jitter policy issue operation).
Abbreviation verdict := (decide baseDelay maxDelay jitter).
Abbreviation id := (correlationId operation).

Lemma run_success policy (fuel : nat) (i : Z) :
  issue i = None ->
  loop policy (S fuel) i = (Some Success, [EvIssue i; EvObserve id i None]).
Proof. intros H. simpl. rewrite H. reflexivity. Qed.

Lemma run_disabled (fuel : nat) (i : Z) (raw : string) :
  issue i = Some raw ->
  loop None (S fuel) i
  = (Some (TerminalError (classify raw) raw (i + 1)),
     [EvIssue i; EvObserve id i (Some (classify raw, raw))]).
Proof. intros H. simpl. rewrite H. reflexivity. Qed.

Lemma run_stop p (fuel : nat) (i : Z) (raw : string) :
  issue i = Some raw ->
  shouldRetry (verdict p (classify raw) i operation) = false ->
  loop (Some p) (S fuel) i
  = (Some (TerminalError (classify raw) raw (i + 1)),
     [EvIssue i; EvObserve id i (Some (classify raw, raw));
      EvDecide (classify raw) i]).
Proof. intros H Hstop. simpl. rewrite H, Hstop. reflexivity. Qed.

Lemma run_retry p (fuel : nat) (i : Z) (raw : string) :
  issue i = Some raw ->
  shouldRetry (verdict p (classify raw) i operation) = true ->
  loop (Some p) (S fuel) i
  = (fst (loop (Some p) fuel (i + 1)),
     EvIssue i
     :: EvObserve id i (Some (classify raw, raw))
     :: EvDecide (classify raw) i
     :: EvSleep (delay (verdict p (classify raw) i operation))
     :: snd (loop (Some p) fuel (i + 1))).
Proof.
  intros H Hgo. simpl. rewrite H, Hgo.
  destruct (run _ _ _ _ _ _ _ fuel (i + 1)); reflexivity.
Qed.

(** The shape of every trace: the attempts issued are consecutive from
    the start index, each is followed by one observation that carries
    its index and outcome, and a terminal error counts them. *)
Lemma run_trace policy (fuel : nat) :
  forall i : Z,
  exists n : nat,
    issued (snd (loop policy fuel i)) = indicesFrom i n
    /\ observed (snd (loop policy fuel i))
       = map (fun j => (id, j, outcomeAt classify issue j))
           (issued (snd (loop policy fuel i)))
    /\ (fuel <> 0%nat -> n <> 0%nat)
    /\ (forall k raw made,
          fst (loop policy fuel i) = Some (TerminalError k raw made) ->
          made = i + Z.of_nat n).
Proof.
  induction fuel as [|fuel IH]; intros i.
  - exists 0%nat. repeat split; try reflexivity; try congruence.
    simpl. discriminate.
  - destruct (issue i) as [raw|] eqn:Hi.
    + assert (Hout : outcomeAt classify issue i = Some (classify raw, raw))
        by (unfold outcomeAt; rewrite Hi; reflexivity).
      destruct policy as [p|].
      * destruct (shouldRetry (verdict p (classify raw) i operation)) eqn:Hgo.
        -- rewrite (run_retry p fuel i raw Hi Hgo).
           destruct (IH (i + 1)) as (n & Hiss & Hobs & _ & Hmade).
           exists (S n). rewrite indicesFrom_S. simpl.
           rewrite Hiss in *. rewrite Hobs, Hout.
           repeat split; try reflexivity; try congruence.
           intros k raw' made Hr. rewrite (Hmade _ _ _ Hr). lia.
        -- rewrite (run_stop p fuel i raw Hi Hgo).
           exists 1%nat. simpl. rewrite Hout.
           repeat split; try congruence; try one_attempt.
      * rewrite (run_disabled fuel i raw Hi).
        exists 1%nat. simpl. rewrite Hout.
        repeat split; try congruence; try one_attempt.
    + assert (Hout : outcomeAt classify issue i = None)
        by (unfold outcomeAt; rewrite Hi; reflexivity).
      rewrite (run_success policy fuel i Hi).
      exists 1%nat. simpl. rewrite Hout.
      repeat split; try congruence; try one_attempt.
Qed.

Lemma decide_cap p (kind : ErrorKind) (i : Z) (op : Operation) :
  gocql.MaxRetryCount p <= i -> verdict p kind i op = stop.
Proof.
  intros Hcap. unfold decide.
  destruct (gocql.MaxRetryCount p <=? i) eqn:Hle; [reflexivity|].
  apply Z.leb_gt in Hle. lia.
Qed.

Lemma decide_retry_below_cap p (kind : ErrorKind) (i : Z) (op : Operation) :
  shouldRetry (verdict p kind i op) = true -> i < gocql.MaxRetryCount p.
Proof.
  intros Hgo. destruct (Z.lt_ge_cases i (gocql.MaxRetryCount p)) as [|Hcap];
    [assumption|].
  rewrite (decide_cap p kind i op Hcap) in Hgo. discriminate Hgo.
Qed.

Lemma decide_throttled p (kind : ErrorKind) (i : Z) (op : Operation) :
  i < gocql.MaxRetryCount p -> isThrottled kind = true ->
  shouldRetry (verdict p kind i op) = true.
Proof.
  intros Hlt Hk. unfold decide.
  destruct (gocql.MaxRetryCount p <=? i) eqn:Hle.
  - apply Z.leb_le in Hle. lia.
  - destruct kind as [[d|]| | |]; try discriminate Hk; reflexivity.
Qed.

Lemma backoff_nonneg (i : Z) :
  0 <= baseDelay -> 0 <= maxDelay -> 0 <= jitter i ->
  0 <= backoff baseDelay maxDelay jitter i.
Proof.
  intros Hb Hm Hj. unfold backoff.
  assert (0 <= 2 ^ i) by (apply Z.pow_nonneg; lia).
  assert (0 <= baseDelay * 2 ^ i) by (apply Z.mul_nonneg_nonneg; assumption).
  lia.
Qed.

Lemma decide_delay_nonneg p (kind : ErrorKind) (i : Z) (op : Operation) :
  0 <= baseDelay -> 0 <= maxDelay -> (forall j, 0 <= jitter j) ->
  hintNonneg kind ->
  0 <= delay (verdict p kind i op).
Proof.
  intros Hb Hm Hj Hk. unfold decide.
  pose proof (backoff_nonneg i Hb Hm (Hj i)) as Hback.
  destruct (gocql.MaxRetryCount p <=? i); [simpl; lia|].
  destruct kind as [[d|]| | |]; simpl in *; try lia.
  destruct (idempotent op); simpl; lia.
Qed.

(** The loop ends within the budget. *)
Lemma run_terminates p (fuel : nat) :
  forall i : Z,
    (Z.to_nat (gocql.MaxRetryCount p - i) < fuel)%nat ->
    fst (loop (Some p) fuel i) <> None.
Proof.
  induction fuel as [|fuel IH]; intros i Hfuel; [lia|].
  destruct (issue i) as [raw|] eqn:Hi.
  - destruct (shouldRetry (verdict p (classify raw) i operation)) eqn:Hgo.
    + rewrite (run_retry p fuel i raw Hi Hgo). simpl.
      apply IH. apply decide_retry_below_cap in Hgo. lia.
    + rewrite (run_stop p fuel i raw Hi Hgo). discriminate.
  - rewrite (run_success (Some p) fuel i Hi). discriminate.
Qed.

Lemma execute_terminates policy :
  fst (execute classify baseDelay maxDelay jitter policy issue operation)
  <> None.
Proof.
  unfold execute, budget. destruct policy as [p|].
  - apply run_terminates. lia.
  - destruct (issue 0) as [raw|] eqn:Hi.
    + rewrite (run_disabled 0 0 raw Hi). discriminate.
    + rewrite (run_success None 0 0 Hi). discriminate.
Qed.

(** An operation that is throttled at every attempt is retried up to the
    cap and then given up. *)
Lemma run_throttled p (m : nat) :
  (forall i, exists raw, issue i = Some raw /\ isThrottled (classify raw) = true) ->
  forall (i : Z) (fuel : nat),
    i + Z.of_nat m = gocql.MaxRetryCount p ->
    (m < fuel)%nat ->
    exists raw,
      issue (gocql.MaxRetryCount p) = Some raw
      /\ fst (loop (Some p) fuel i)
         = Some (TerminalError (classify raw) raw (gocql.MaxRetryCount p + 1))
      /\ issued (snd (loop (Some p) fuel i)) = indicesFrom i (S m).
Proof.
  intros Hall. induction m as [|m IH]; intros i fuel Hi Hfuel;
    (destruct fuel as [|fuel]; [lia|]);
    destruct (Hall i) as (raw & Hraw & Hk).
  - assert (Hstop : shouldRetry (verdict p (classify raw) i operation) = false)
      by (rewrite decide_cap; [reflexivity | lia]).
    rewrite (run_stop p fuel i raw Hraw Hstop).
    assert (i = gocql.MaxRetryCount p) as <- by lia.
    exists raw. repeat split; try assumption.
    unfold indicesFrom. simpl. f_equal. lia.
  - assert (Hgo : shouldRetry (verdict p (classify raw) i operation) = true)
      by (apply decide_throttled; [lia | assumption]).
    rewrite (run_retry p fuel i raw Hraw Hgo). simpl.
    destruct (IH (i + 1) fuel ltac:(lia) ltac:(lia)) as (last & Hlast & Hres & Hiss).
    exists last. rewrite indicesFrom_S, Hiss. repeat split; assumption.
Qed.

End LoopFacts.

(** C1 (the attempt loop and the policy are modelled from the spec): with
    maxRetries = N >= 0 and every attempt throttled, the loop ends, for any
    fuel above N, with a Throttled terminal error after the attempts
    0, ..., N, which are N + 1 attempts; the policy refuses a retry from
    attempt N on whatever the kind; and the delay it returns is not
    negative when the tunables, the jitter and the server's hint are not. *)
Theorem throttled_makes_N_plus_1_attempts
  (classify : string -> Orchestrator.ErrorKind) (baseDelay maxDelay : Z)
  (jitter : Z -> Z) (issue : Z -> option string)
  (operation : Orchestrator.Operation) (N : Z) :
  0 <= N ->
  (forall i, exists raw,
      issue i = Some raw /\ Orchestrator.isThrottled (classify raw) = true) ->
  0 <= maxDelay ->
  (forall i, 0 <= jitter i < baseDelay) ->
  let p := retry.NewCosmosRetryPolicy N in
  let run := Orchestrator.run classify baseDelay maxDelay jitter (Some p)
               issue operation in
  (forall fuel, (Z.to_nat N < fuel)%nat ->
     exists raw ra,
       fst (run fuel 0)
       = Some (Orchestrator.TerminalError (Orchestrator.Throttled ra) raw (N + 1))
       /\ Orchestrator.issued (snd (run fuel 0))
          = Orchestrator.indicesFrom 0 (Z.to_nat (N + 1))
       /\ Z.of_nat (List.length (Orchestrator.issued (snd (run fuel 0)))) = N + 1)
  /\ Orchestrator.execute classify baseDelay maxDelay jitter (Some p)
       issue operation = run (Z.to_nat (N + 1)) 0
  /\ (forall kind i op,
        N <= i ->
        Orchestrator.shouldRetry
          (Orchestrator.decide baseDelay maxDelay jitter p kind i op) = false)
  /\ (forall kind i op,
        Orchestrator.hintNonneg kind ->
        0 <= Orchestrator.delay
               (Orchestrator.decide baseDelay maxDelay jitter p kind i op)).
Proof.
  intros HN Hall Hmax Hjit p run.
  split; [|split; [|split]].
  - intros fuel Hfuel.
    destruct (run_throttled classify baseDelay maxDelay jitter issue operation
                p (Z.to_nat N) Hall 0 fuel) as (raw & Hraw & Hres & Hiss).
    + simpl. lia.
    + exact Hfuel.
    + simpl in Hres. fold run in Hres, Hiss.
      destruct (classify raw) as [ra| | |] eqn:Hk;
        try (destruct (Hall N) as (raw' & Hraw' & Hk');
             simpl in Hraw; rewrite Hraw in Hraw'; inversion Hraw'; subst raw';
             rewrite Hk in Hk'; discriminate Hk').
      exists raw, ra. rewrite Hres, Hiss, indicesFrom_length.
      replace (Z.to_nat (N + 1)) with (S (Z.to_nat N)) by lia.
      repeat split; lia.
  - unfold Orchestrator.execute, Orchestrator.budget. subst run. simpl.
    replace (Z.to_nat (N + 1)) with (S (Z.to_nat N)) by lia. reflexivity.
  - intros kind i op Hi. rewrite decide_cap; [reflexivity | simpl; lia].
  - intros kind i op Hk. apply decide_delay_nonneg; try assumption.
    + specialize (Hjit 0). lia.
    + intros j. specialize (Hjit j). lia.
Qed.

Lemma throttled_makes_N_plus_1_attempts_witness :
  0 <= 2
  /\ (forall i, exists raw,
        alwaysThrottled i = Some raw
        /\ Orchestrator.isThrottled (classifyByMessage raw) = true)
  /\ 0 <= 8
  /\ (forall i : Z, 0 <= (fun _ => 0) i < 1)
  /\ exists raw ra,
       fst (Orchestrator.run classifyByMessage 1 8 (fun _ => 0)
              (Some (retry.NewCosmosRetryPolicy 2)) alwaysThrottled
              sampleOperation 3 0)
       = Some (Orchestrator.TerminalError (Orchestrator.Throttled ra) raw (2 + 1)).
Proof.
  assert (HN : 0 <= 2) by lia.
  assert (Hall : forall i, exists raw,
             alwaysThrottled i = Some raw
             /\ Orchestrator.isThrottled (classifyByMessage raw) = true)
    by (intros i; exists "TooManyRequests (429)"; split; reflexivity).
  assert (Hmax : 0 <= 8) by lia.
  assert (Hjit : forall i : Z, 0 <= (fun _ => 0) i < 1) by (intros i; simpl; lia).
  split; [exact HN|]. split; [exact Hall|]. split; [exact Hmax|].
  split; [exact Hjit|].
  destruct (throttled_makes_N_plus_1_attempts classifyByMessage 1 8
              (fun _ => 0) alwaysThrottled sampleOperation 2 HN Hall Hmax Hjit)
    as (Hrun & _).
  destruct (Hrun 3%nat ltac:(simpl; lia)) as (raw & ra & Hres & _).
  exists raw, ra. exact Hres.
Defined.

(** C3, amended (the attempt loop is modelled from the spec, the observer
    is the source's): the loop ends; the observer is invoked exactly once
    for every attempt, the successful one and the final failing one
    included, with the attempt's index, counted from 0, and its outcome;
    it logs for failed attempts only, one error record followed by one
    retry note when the index is greater than 0, and nothing for a
    successful attempt. *)
Theorem observer_once_per_attempt
  (classify : string -> Orchestrator.ErrorKind) (baseDelay maxDelay : Z)
  (jitter : Z -> Z) (policy : option gocql.CosmosRetryPolicy)
  (issue : Z -> option string) (operation : Orchestrator.Operation)
  (l : OrderInsertErrorLogger) :
  let done := Orchestrator.execute classify baseDelay maxDelay jitter policy
                issue operation in
  fst done <> None
  /\ (exists n : nat,
        n <> 0%nat
        /\ Orchestrator.issued (snd done) = map Z.of_nat (seq 0 n)
        /\ Orchestrator.observed (snd done)
           = map (fun i => (Orchestrator.correlationId operation, i,
                            Orchestrator.outcomeAt classify issue i))
               (Orchestrator.issued (snd done))
        /\ forall k raw made,
             fst done = Some (Orchestrator.TerminalError k raw made) ->
             made = Z.of_nat n)
  /\ (forall id i,
        ObserveQuery l (Orchestrator.toObservedQuery (id, i, None)) = [])
  /\ (forall id i k raw,
        ObserveQuery l (Orchestrator.toObservedQuery (id, i, Some (k, raw)))
        = queryErrorLine (orderID l) raw
            :: (if 0 <? i then [retriedLine (orderID l) i] else [])).
Proof.
  intros done. subst done.
  split; [apply execute_terminates|].
  split; [|split; reflexivity].
  unfold Orchestrator.execute.
  destruct (run_trace classify baseDelay maxDelay jitter issue operation
              policy (Orchestrator.budget policy) 0)
    as (n & Hiss & Hobs & Hn & Hmade).
  exists n. split.
  - apply Hn. unfold Orchestrator.budget. destruct policy; discriminate.
  - split; [|split; [exact Hobs|]].
    + rewrite Hiss. unfold Orchestrator.indicesFrom.
      apply map_ext. intros k. lia.
    + intros k raw made Hr. rewrite (Hmade _ _ _ Hr). lia.
Qed.

(** ** Reading back a printed integer *)

Lemma cutoff_eq : strconv.cutoff = 1844674407370955162.
Proof. reflexivity. Qed.

Lemma maxUint64_eq : strconv.maxUint64 = 18446744073709551615.
Proof. reflexivity. Qed.

Lemma parseUintLoop_cons (c : ascii) (s : string) (n d : Z) :
  strconv.digit c = Some d ->
  n < strconv.cutoff ->
  n * 10 + d <= strconv.maxUint64 ->
  strconv.parseUintLoop (String c s) n = strconv.parseUintLoop s (n * 10 + d).
Proof.
  intros Hd Hcut Hmax. simpl. rewrite Hd.
  destruct (strconv.cutoff <=? n) eqn:H1; [apply Z.leb_le in H1; lia|].
  destruct (strconv.maxUint64 <? n * 10 + d) eqn:H2;
    [apply Z.ltb_lt in H2; lia | reflexivity].
Qed.

Lemma uintValue_ge (d : Decimal.uint) :
  forall acc, 0 <= acc -> acc <= strconv.uintValue d acc.
Proof.
  induction d; intros acc Hacc; simpl; try lia;
    match goal with
    | |- _ <= strconv.uintValue _ ?a => specialize (IHd a ltac:(lia)); lia
    end.
Qed.

Lemma uintValue_acc (d : Decimal.uint) :
  forall p : positive,
    strconv.uintValue d (Z.pos p) = Z.pos (Pos.of_uint_acc d p).
Proof.
  induction d; intros p; simpl; try reflexivity;
    rewrite <- IHd; f_equal; lia.
Qed.

Lemma uintValue_of_uint (d : Decimal.uint) :
  strconv.uintValue d 0 = Z.of_N (Pos.of_uint d).
Proof.
  induction d; simpl; try reflexivity; try exact IHd;
    match goal with
    | |- strconv.uintValue _ _ = Z.pos (Pos.of_uint_acc _ ?p) =>
        rewrite <- uintValue_acc; reflexivity
    end.
Qed.

Lemma uintValue_to_uint (p : positive) :
  strconv.uintValue (Pos.to_uint p) 0 = Z.pos p.
Proof.
  rewrite uintValue_of_uint, DecimalPos.Unsigned.of_to. reflexivity.
Qed.

Lemma parseUintLoop_digits (d : Decimal.uint) :
  forall acc,
    0 <= acc ->
    strconv.uintValue d acc <= strconv.maxUint64 ->
    strconv.parseUintLoop (NilEmpty.string_of_uint d) acc
    = (strconv.uintValue d acc, None).
Proof.
  induction d; intros acc Hacc Hmax; [reflexivity | ..];
    simpl in Hmax;
    match type of Hmax with
    | strconv.uintValue _ (_ * 10 + ?k) <= _ =>
        pose proof (uintValue_ge d (acc * 10 + k) ltac:(lia)) as Hge;
        pose proof cutoff_eq as Hc; pose proof maxUint64_eq as Hm;
        change (NilEmpty.string_of_uint ?x)
          with (String (ascii_of_nat (48 + Z.to_nat k))
                  (NilEmpty.string_of_uint d));
        rewrite (parseUintLoop_cons _ _ acc k);
        [ apply IHd; [lia | exact Hmax] | reflexivity | lia | lia ]
    end.
Qed.

Lemma Atoi_decimal (n : Z) :
  0 <= n <= GoInt.MaxInt -> strconv.Atoi (fmt.verb_v_int n) = (n, None).
Proof.
  intros [Hlo Hhi]. unfold fmt.verb_v_int.
  destruct n as [|p|p]; [reflexivity | | lia].
  unfold Z.to_int, NilZero.string_of_int, NilZero.string_of_uint.
  pose proof (uintValue_to_uint p) as Hval.
  pose proof (DecimalPos.Unsigned.to_uint_nonnil p) as Hnil.
  assert (Hloop :
    strconv.parseUintLoop (NilEmpty.string_of_uint (Pos.to_uint p)) 0
    = (Z.pos p, None)).
  { rewrite <- Hval. apply parseUintLoop_digits; [lia|].
    rewrite Hval, maxUint64_eq. unfold GoInt.MaxInt in Hhi. lia. }
  unfold strconv.Atoi, strconv.ParseInt.
  destruct (Pos.to_uint p) as [|d|d|d|d|d|d|d|d|d|d] eqn:Hd;
    [congruence | ..];
    cbn [NilEmpty.string_of_uint] in *;
    cbn [Ascii.eqb Bool.eqb negb orb andb];
    rewrite Hloop;
    (destruct (2 ^ 63 <=? Z.pos p) eqn:Hr;
     [apply Z.leb_le in Hr; unfold GoInt.MaxInt in Hhi; lia | reflexivity]).
Qed.

(** ** Start-up *)

(** With the mandatory variables set, a readable flag, a readable retry
    count when the flag is on, and a reachable cluster, [init] completes
    and leaves this state behind. *)
Lemma init_completes (connect : gocql.ClusterConfig -> option string)
  (env : gmap string string) (b : bool) :
  mandatorySet env ->
  strconv.ParseBool (retryFlag env) = (b, None) ->
  (b = true -> snd (strconv.Atoi (maxRetriesText env)) = None) ->
  (forall c, connect c = None) ->
  init connect env
  = Ok {| cs :=
            {| gocql.cfg :=
                 {| gocql.Hosts := [os.Getenv env "COSMOSDB_CASSANDRA_CONTACT_POINT"];
                    gocql.Port := 10350;
                    gocql.Authenticator :=
                      Some {| gocql.Username := os.Getenv env "COSMOSDB_CASSANDRA_USER";
                              gocql.Password := os.Getenv env "COSMOSDB_CASSANDRA_PASSWORD" |};
                    gocql.SslMinVersion := Some tlsVersionTLS12;
                    gocql.RetryPolicy :=
                      if b
                      then Some (retry.NewCosmosRetryPolicy
                                   (fst (strconv.Atoi (maxRetriesText env))))
                      else None;
                    gocql.ProtoVersion := 4;
                    gocql.ConnectTimeout := 3 * gocql.Second;
                    gocql.Timeout := 3 * gocql.Second |} |};
          insertQuery :=
            insertQueryFormat (os.Getenv env "COSMOSDB_CASSANDRA_KEYSPACE")
              (os.Getenv env "COSMOSDB_CASSANDRA_TABLE");
          useRetryPolicy := b |}.
Proof.
  intros (Hc & Hu & Hp) Hflag Hcount Hconn.
  apply String.eqb_neq in Hc, Hu, Hp.
  unfold init, retryFlag, maxRetriesText in *. cbv zeta in *.
  rewrite Hc, Hu, Hp. cbn [orb]. rewrite Hflag. cbn [bindRun].
  destruct b.
  - specialize (Hcount eq_refl).
    destruct (strconv.Atoi _) as [n [e|]]; [discriminate Hcount|].
    cbn [bindRun fst]. unfold CreateSession. rewrite Hconn. reflexivity.
  - cbn [bindRun]. unfold CreateSession. rewrite Hconn. reflexivity.
Qed.

(** C4 (the attempt loop is modelled from the spec): with the flag off,
    start-up leaves the session without a retry policy, and a write whose
    first attempt fails, whatever the kind, makes that one attempt, is
    observed once and ends with that error; the policy is not consulted
    and nothing is slept, for any fuel. *)
Theorem retry_disabled_single_attempt
  (connect : gocql.ClusterConfig -> option string) (env : gmap string string)
  (classify : string -> Orchestrator.ErrorKind) (baseDelay maxDelay : Z)
  (jitter : Z -> Z) (issue : Z -> option string)
  (operation : Orchestrator.Operation) (raw : string) :
  mandatorySet env ->
  strconv.ParseBool (retryFlag env) = (false, None) ->
  (forall c, connect c = None) ->
  issue 0 = Some raw ->
  exists g,
    init connect env = Ok g
    /\ useRetryPolicy g = false
    /\ gocql.RetryPolicy (gocql.cfg (cs g)) = None
    /\ Orchestrator.execute classify baseDelay maxDelay jitter
         (gocql.RetryPolicy (gocql.cfg (cs g))) issue operation
       = (Some (Orchestrator.TerminalError (classify raw) raw 1),
          [Orchestrator.EvIssue 0;
           Orchestrator.EvObserve (Orchestrator.correlationId operation) 0
             (Some (classify raw, raw))])
    /\ Orchestrator.decisions
         (snd (Orchestrator.execute classify baseDelay maxDelay jitter
                 (gocql.RetryPolicy (gocql.cfg (cs g))) issue operation)) = []
    /\ (forall fuel,
          Orchestrator.run classify baseDelay maxDelay jitter
            (gocql.RetryPolicy (gocql.cfg (cs g))) issue operation (S fuel) 0
          = Orchestrator.execute classify baseDelay maxDelay jitter
              (gocql.RetryPolicy (gocql.cfg (cs g))) issue operation)
    /\ forall rw req,
         let served :=
           Add (Orchestrator.driver classify baseDelay maxDelay jitter issue)
             g rw req in
         response served = http.Error rw raw (respStatus raw)
         /\ logged served = [queryErrorLine (fst (GenerateUUID req)) raw].
Proof.
  intros Hset Hflag Hconn Hfail.
  eexists. split.
  - apply (init_completes connect env false Hset Hflag); [discriminate | exact Hconn].
  - cbn [useRetryPolicy cs gocql.cfg gocql.RetryPolicy].
    unfold Orchestrator.execute, Orchestrator.budget.
    split; [reflexivity|]. split; [reflexivity|].
    split; [apply (run_disabled _ _ _ _ _ _ 0%nat 0 raw Hfail)|].
    split; [rewrite (run_disabled _ _ _ _ _ _ 0%nat 0 raw Hfail); reflexivity|].
    split.
    + intros fuel.
      rewrite (run_disabled classify baseDelay maxDelay jitter issue operation
                 fuel 0 raw Hfail).
      rewrite (run_disabled classify baseDelay maxDelay jitter issue operation
                 0%nat 0 raw Hfail).
      reflexivity.
    + intros rw req. cbv zeta.
      unfold Add, Exec, Orchestrator.driver, Orchestrator.execute,
        Orchestrator.budget.
      destruct (GenerateUUID req) as [rid uerr].
      cbn [cs gocql.cfg gocql.RetryPolicy observer orderID].
      rewrite (run_disabled classify baseDelay maxDelay jitter issue
                 {| Orchestrator.correlationId := rid;
                    Orchestrator.idempotent := true |} 0%nat 0 raw Hfail).
      split; reflexivity.
Qed.

Lemma retry_disabled_single_attempt_witness :
  let env := <["USE_RETRY_POLICY" := "false"]> sampleEnv in
  mandatorySet env
  /\ strconv.ParseBool (retryFlag env) = (false, None)
  /\ (forall c, reachable c = None)
  /\ alwaysThrottled 0 = Some "TooManyRequests (429)"
  /\ exists g,
       init reachable env = Ok g
       /\ Orchestrator.execute classifyByMessage 1 8 (fun _ => 0)
            (gocql.RetryPolicy (gocql.cfg (cs g))) alwaysThrottled sampleOperation
          = (Some (Orchestrator.TerminalError (Orchestrator.Throttled None)
                     "TooManyRequests (429)" 1),
             [Orchestrator.EvIssue 0;
              Orchestrator.EvObserve "7f4e" 0
                (Some (Orchestrator.Throttled None, "TooManyRequests (429)"))]).
Proof.
  intros env.
  assert (Hset : mandatorySet env)
    by (repeat split; vm_compute; discriminate).
  assert (Hflag : strconv.ParseBool (retryFlag env) = (false, None))
    by (vm_compute; reflexivity).
  assert (Hconn : forall c, reachable c = None) by reflexivity.
  assert (Hfail : alwaysThrottled 0 = Some "TooManyRequests (429)")
    by reflexivity.
  split; [exact Hset|]. split; [exact Hflag|]. split; [exact Hconn|].
  split; [exact Hfail|].
  destruct (retry_disabled_single_attempt reachable env classifyByMessage 1 8
              (fun _ => 0) alwaysThrottled sampleOperation
              "TooManyRequests (429)" Hset Hflag Hconn Hfail)
    as (g & Hinit & _ & _ & Hexec & _).
  exists g. split; [exact Hinit | exact Hexec].
Defined.

Lemma maxRetriesText_unset (env : gmap string string) :
  os.Getenv env "MAX_RETRIES" = "" -> maxRetriesText env = "5".
Proof. intros H. unfold maxRetriesText. rewrite H. reflexivity. Qed.

Lemma maxRetriesText_set (env : gmap string string) (s : string) :
  s <> "" -> os.Getenv env "MAX_RETRIES" = s -> maxRetriesText env = s.
Proof.
  intros Hs H. unfold maxRetriesText. rewrite H.
  apply String.eqb_neq in Hs. rewrite Hs. reflexivity.
Qed.

Lemma verb_v_int_nonempty (n : Z) :
  0 <= n <= GoInt.MaxInt -> fmt.verb_v_int n <> "".
Proof.
  intros Hn Hempty. pose proof (Atoi_decimal n Hn) as Hback.
  rewrite Hempty in Hback. discriminate Hback.
Qed.

(** C5: with the retry policy enabled, start-up builds the policy with
    maxRetries = 5 when MAX_RETRIES is not set, with n when MAX_RETRIES is
    the decimal text of an integer n between 0 and the largest [int], and
    in general with whatever integer [strconv.Atoi] reads from the text. *)
Theorem init_maxRetries_default_and_explicit
  (connect : gocql.ClusterConfig -> option string) (env : gmap string string) :
  mandatorySet env ->
  strconv.ParseBool (retryFlag env) = (true, None) ->
  (forall c, connect c = None) ->
  (os.Getenv env "MAX_RETRIES" = "" ->
   exists g, init connect env = Ok g
             /\ useRetryPolicy g = true
             /\ gocql.RetryPolicy (gocql.cfg (cs g))
                = Some (retry.NewCosmosRetryPolicy 5))
  /\ (forall n,
        0 <= n <= GoInt.MaxInt ->
        os.Getenv env "MAX_RETRIES" = fmt.verb_v_int n ->
        exists g, init connect env = Ok g
                  /\ useRetryPolicy g = true
                  /\ gocql.RetryPolicy (gocql.cfg (cs g))
                     = Some (retry.NewCosmosRetryPolicy n))
  /\ (forall s n,
        s <> "" ->
        os.Getenv env "MAX_RETRIES" = s ->
        strconv.Atoi s = (n, None) ->
        exists g, init connect env = Ok g
                  /\ useRetryPolicy g = true
                  /\ gocql.RetryPolicy (gocql.cfg (cs g))
                     = Some (retry.NewCosmosRetryPolicy n)).
Proof.
  intros Hset Hflag Hconn.
  assert (Hgen : forall s n,
             maxRetriesText env = s -> strconv.Atoi s = (n, None) ->
             exists g, init connect env = Ok g
                       /\ useRetryPolicy g = true
                       /\ gocql.RetryPolicy (gocql.cfg (cs g))
                          = Some (retry.NewCosmosRetryPolicy n)).
  { intros s n Htext Hread. eexists. split.
    - apply (init_completes connect env true Hset Hflag); [|exact Hconn].
      intros _. rewrite Htext, Hread. reflexivity.
    - cbn [useRetryPolicy cs gocql.cfg gocql.RetryPolicy].
      rewrite Htext, Hread. split; reflexivity. }
  split; [|split].
  - intros Hunset. apply (Hgen "5"); [|reflexivity].
    apply maxRetriesText_unset. exact Hunset.
  - intros n Hn Htext. apply (Hgen (fmt.verb_v_int n)).
    + apply maxRetriesText_set; [apply verb_v_int_nonempty|]; assumption.
    + apply Atoi_decimal. exact Hn.
  - intros s n Hs Htext Hread. apply (Hgen s); [|exact Hread].
    apply maxRetriesText_set; assumption.
Qed.

Lemma init_maxRetries_default_and_explicit_witness :
  let env3 := <["MAX_RETRIES" := "3"]> sampleEnv in
  (mandatorySet sampleEnv
   /\ strconv.ParseBool (retryFlag sampleEnv) = (true, None)
   /\ os.Getenv sampleEnv "MAX_RETRIES" = ""
   /\ exists g, init reachable sampleEnv = Ok g
                /\ gocql.RetryPolicy (gocql.cfg (cs g))
                   = Some (retry.NewCosmosRetryPolicy 5))
  /\ (mandatorySet env3
      /\ strconv.ParseBool (retryFlag env3) = (true, None)
      /\ 0 <= 3 <= GoInt.MaxInt
      /\ os.Getenv env3 "MAX_RETRIES" = fmt.verb_v_int 3
      /\ exists g, init reachable env3 = Ok g
                   /\ gocql.RetryPolicy (gocql.cfg (cs g))
                      = Some (retry.NewCosmosRetryPolicy 3)).
Proof.
  intros env3.
  assert (Hconn : forall c, reachable c = None) by reflexivity.
  split.
  - assert (Hset : mandatorySet sampleEnv)
      by (repeat split; vm_compute; discriminate).
    assert (Hflag : strconv.ParseBool (retryFlag sampleEnv) = (true, None))
      by (vm_compute; reflexivity).
    assert (Hunset : os.Getenv sampleEnv "MAX_RETRIES" = "")
      by (vm_compute; reflexivity).
    split; [exact Hset|]. split; [exact Hflag|]. split; [exact Hunset|].
    destruct (init_maxRetries_default_and_explicit reachable sampleEnv
                Hset Hflag Hconn) as (Hdefault & _).
    destruct (Hdefault Hunset) as (g & Hinit & _ & Hpolicy).
    exists g. split; assumption.
  - assert (Hset : mandatorySet env3)
      by (repeat split; vm_compute; discriminate).
    assert (Hflag : strconv.ParseBool (retryFlag env3) = (true, None))
      by (vm_compute; reflexivity).
    assert (Hn : 0 <= 3 <= GoInt.MaxInt) by (vm_compute; split; discriminate).
    assert (Htext : os.Getenv env3 "MAX_RETRIES" = fmt.verb_v_int 3)
      by (vm_compute; reflexivity).
    split; [exact Hset|]. split; [exact Hflag|]. split; [exact Hn|].
    split; [exact Htext|].
    destruct (init_maxRetries_default_and_explicit reachable env3
                Hset Hflag Hconn) as (_ & Hexplicit & _).
    destruct (Hexplicit 3 Hn Htext) as (g & Hinit & _ & Hpolicy).
    exists g. split; assumption.
Defined.

(** ** Runs on concrete inputs *)

Example Atoi_default : strconv.Atoi "5" = (5, None).
Proof. reflexivity. Qed.

Example Atoi_largest :
  strconv.Atoi "9223372036854775807" = (GoInt.MaxInt, None).
Proof. vm_compute. reflexivity. Qed.

Example Atoi_too_large :
  snd (strconv.Atoi "9223372036854775808")
  = Some {| strconv.Func := "Atoi"; strconv.Num := "9223372036854775808";
            strconv.Err := strconv.ErrRange |}.
Proof. vm_compute. reflexivity. Qed.

Example Atoi_not_a_number :
  strconv.Atoi "five"
  = (0, Some {| strconv.Func := "Atoi"; strconv.Num := "five";
                strconv.Err := strconv.ErrSyntax |}).
Proof. reflexivity. Qed.

Example init_missing_variables : init reachable ∅ = Fatal MissingEnv.
Proof. vm_compute. reflexivity. Qed.

Example init_unreadable_flag :
  init reachable (<["USE_RETRY_POLICY" := "yes"]> sampleEnv)
  = Fatal (FatalNumError {| strconv.Func := "ParseBool"; strconv.Num := "yes";
                            strconv.Err := strconv.ErrSyntax |}).
Proof. vm_compute. reflexivity. Qed.

Example init_negative_count :
  exists g,
    init reachable (<["MAX_RETRIES" := "-1"]> sampleEnv) = Ok g
    /\ gocql.RetryPolicy (gocql.cfg (cs g))
       = Some (retry.NewCosmosRetryPolicy (-1)).
Proof. eexists. split; vm_compute; reflexivity. Qed.

(** Section 8 of the spec: maxRetries = 2 and the outcomes Throttled,
    Throttled, Success give three attempts, observed with indices 0, 1, 2,
    and the observer logs three records for the two failures. *)
Example two_throttles_then_success :
  let done := Orchestrator.execute classifyByMessage 1 8 (fun _ => 0)
                (Some (retry.NewCosmosRetryPolicy 2)) throttledTwice
                sampleOperation in
  fst done = Some Orchestrator.Success
  /\ Orchestrator.issued (snd done) = [0; 1; 2]
  /\ map (fun o => snd (fst o)) (Orchestrator.observed (snd done)) = [0; 1; 2]
  /\ flat_map (ObserveQuery {| orderID := "7f4e" |})
       (map Orchestrator.toObservedQuery (Orchestrator.observed (snd done)))
     = [queryErrorLine "7f4e" "TooManyRequests (429)";
        queryErrorLine "7f4e" "TooManyRequests (429)";
        retriedLine "7f4e" 1].
Proof. cbv zeta. repeat split; reflexivity. Qed.

Example Add_throttled_request :
  let served := Add (failingDriver "TooManyRequests (429)") sampleGlobals
                  http.fresh sampleRequest in
  http.servedStatus (response served) = 429
  /\ logged served = [queryErrorLine "7f4e" "TooManyRequests (429)"].
Proof. cbv zeta. split; reflexivity. Qed.

Example Add_accepted_request :
  let served := Add quietDriver sampleGlobals http.fresh sampleRequest in
  http.servedStatus (response served) = 200
  /\ logged served = ["Added order ID 7f4e" +:+ fmt.LF].
Proof. cbv zeta. split; reflexivity. Qed.

(** * Further properties of the start-up, the handler and the observer *)

(** ** The environment *)

Lemma Getenv_insert_eq (env : gmap string string) (k v : string) :
  os.Getenv (<[k := v]> env) k = v.
Proof. unfold os.Getenv. rewrite lookup_insert_eq. reflexivity. Qed.

Lemma Getenv_insert_ne (env : gmap string string) (k k' v : string) :
  k <> k' -> os.Getenv (<[k := v]> env) k' = os.Getenv env k'.
Proof.
  intros Hne. unfold os.Getenv. rewrite lookup_insert_ne by exact Hne.
  reflexivity.
Qed.

Lemma mandatory_test (env : gmap string string) :
  String.eqb (os.Getenv env "COSMOSDB_CASSANDRA_CONTACT_POINT") ""
  || String.eqb (os.Getenv env "COSMOSDB_CASSANDRA_USER") ""
  || String.eqb (os.Getenv env "COSMOSDB_CASSANDRA_PASSWORD") "" = false
  <-> mandatorySet env.
Proof.
  unfold mandatorySet. rewrite !orb_false_iff, !String.eqb_neq. tauto.
Qed.

(** ** The order in which [init] gives up *)

Lemma init_missing (connect : gocql.ClusterConfig -> option string)
  (env : gmap string string) :
  ~ mandatorySet env -> init connect env = Fatal MissingEnv.
Proof.
  intros Hmiss. unfold init. cbv zeta.
  destruct (_ || _) eqn:Htest; [reflexivity|].
  apply mandatory_test in Htest. contradiction.
Qed.

Lemma init_bad_flag (connect : gocql.ClusterConfig -> option string)
  (env : gmap string string) (b : bool) (e : strconv.NumError) :
  mandatorySet env ->
  strconv.ParseBool (retryFlag env) = (b, Some e) ->
  init connect env = Fatal (FatalNumError e).
Proof.
  intros Hset Hflag. apply mandatory_test in Hset.
  unfold init, retryFlag in *. cbv zeta in *.
  rewrite Hset, Hflag. reflexivity.
Qed.

Lemma init_bad_count (connect : gocql.ClusterConfig -> option string)
  (env : gmap string string) (n : Z) (e : strconv.NumError) :
  mandatorySet env ->
  strconv.ParseBool (retryFlag env) = (true, None) ->
  strconv.Atoi (maxRetriesText env) = (n, Some e) ->
  init connect env = Fatal (FatalNumError e).
Proof.
  intros Hset Hflag Hcount. apply mandatory_test in Hset.
  unfold init, retryFlag, maxRetriesText in *. cbv zeta in *.
  rewrite Hset, Hflag. cbn [bindRun]. rewrite Hcount. reflexivity.
Qed.

Lemma init_no_connection (connect : gocql.ClusterConfig -> option string)
  (env : gmap string string) (b : bool) (e : string) :
  mandatorySet env ->
  strconv.ParseBool (retryFlag env) = (b, None) ->
  (b = true -> snd (strconv.Atoi (maxRetriesText env)) = None) ->
  (forall c, connect c = Some e) ->
  init connect env = Fatal (FatalConnect e).
Proof.
  intros Hset Hflag Hcount Hconn. apply mandatory_test in Hset.
  unfold init, retryFlag, maxRetriesText in *. cbv zeta in *.
  rewrite Hset, Hflag. cbn [bindRun].
  destruct b.
  - specialize (Hcount eq_refl).
    destruct (strconv.Atoi _) as [n [e'|]]; [discriminate Hcount|].
    cbn [bindRun]. unfold CreateSession. rewrite Hconn. reflexivity.
  - cbn [bindRun]. unfold CreateSession. rewrite Hconn. reflexivity.
Qed.

(** X1: [init] gives up at the first check that fails, in this order: a
    missing mandatory variable, an unreadable USE_RETRY_POLICY, an
    unreadable MAX_RETRIES when the policy is enabled, a failed connection.
    An earlier failure hides every later one, and nothing is connected
    before the configuration has been read. *)
Theorem init_gives_up_in_order
  (connect : gocql.ClusterConfig -> option string) (env : gmap string string) :
  (~ mandatorySet env -> init connect env = Fatal MissingEnv)
  /\ (mandatorySet env ->
      forall b e,
        strconv.ParseBool (retryFlag env) = (b, Some e) ->
        init connect env = Fatal (FatalNumError e))
  /\ (mandatorySet env ->
      strconv.ParseBool (retryFlag env) = (true, None) ->
      forall n e,
        strconv.Atoi (maxRetriesText env) = (n, Some e) ->
        init connect env = Fatal (FatalNumError e))
  /\ (mandatorySet env ->
      forall b e,
        strconv.ParseBool (retryFlag env) = (b, None) ->
        (b = true -> snd (strconv.Atoi (maxRetriesText env)) = None) ->
        (forall c, connect c = Some e) ->
        init connect env = Fatal (FatalConnect e)).
Proof.
  split; [apply init_missing|].
  split; [intros Hset b e; apply init_bad_flag; exact Hset|].
  split; [intros Hset Hflag n e; apply init_bad_count; assumption|].
  intros Hset b e. apply init_no_connection. exact Hset.
Qed.

Lemma init_gives_up_in_order_witness :
  init unreachable (<["USE_RETRY_POLICY" := "maybe"]> ∅) = Fatal MissingEnv
  /\ init unreachable
       (<["USE_RETRY_POLICY" := "maybe"]> (<["MAX_RETRIES" := "many"]> sampleEnv))
     = Fatal (FatalNumError {| strconv.Func := "ParseBool";
                               strconv.Num := "maybe";
                               strconv.Err := strconv.ErrSyntax |})
  /\ init unreachable (<["MAX_RETRIES" := "many"]> sampleEnv)
     = Fatal (FatalNumError {| strconv.Func := "Atoi"; strconv.Num := "many";
                               strconv.Err := strconv.ErrSyntax |})
  /\ init unreachable sampleEnv
     = Fatal (FatalConnect "gocql: unable to create session").
Proof.
  split; [|split; [|split]].
  - apply (init_gives_up_in_order unreachable).
    intros (H & _). vm_compute in H. congruence.
  - refine (proj1 (proj2 (init_gives_up_in_order unreachable _)) _ false _ _).
    + repeat split; vm_compute; discriminate.
    + vm_compute. reflexivity.
  - refine (proj1 (proj2 (proj2 (init_gives_up_in_order unreachable _)))
              _ _ 0 _ _).
    + repeat split; vm_compute; discriminate.
    + vm_compute. reflexivity.
    + vm_compute. reflexivity.
  - refine (proj2 (proj2 (proj2 (init_gives_up_in_order unreachable _)))
              _ true _ _ _ _).
    + repeat split; vm_compute; discriminate.
    + vm_compute. reflexivity.
    + intros _. vm_compute. reflexivity.
    + intros c. reflexivity.
Defined.

(** ** What a completed start-up guarantees *)

Lemma init_inversion (connect : gocql.ClusterConfig -> option string)
  (env : gmap string string) (g : Globals) :
  init connect env = Ok g ->
  mandatorySet env
  /\ strconv.ParseBool (retryFlag env) = (useRetryPolicy g, None)
  /\ connect (gocql.cfg (cs g)) = None
  /\ gocql.cfg (cs g)
     = {| gocql.Hosts := [os.Getenv env "COSMOSDB_CASSANDRA_CONTACT_POINT"];
          gocql.Port := 10350;
          gocql.Authenticator :=
            Some {| gocql.Username := os.Getenv env "COSMOSDB_CASSANDRA_USER";
                    gocql.Password := os.Getenv env "COSMOSDB_CASSANDRA_PASSWORD" |};
          gocql.SslMinVersion := Some tlsVersionTLS12;
          gocql.RetryPolicy := gocql.RetryPolicy (gocql.cfg (cs g));
          gocql.ProtoVersion := 4;
          gocql.ConnectTimeout := 3000000000;
          gocql.Timeout := 3000000000 |}
  /\ insertQuery g
     = insertQueryFormat (os.Getenv env "COSMOSDB_CASSANDRA_KEYSPACE")
         (os.Getenv env "COSMOSDB_CASSANDRA_TABLE")
  /\ (useRetryPolicy g = false -> gocql.RetryPolicy (gocql.cfg (cs g)) = None)
  /\ (useRetryPolicy g = true ->
      exists n,
        strconv.Atoi (maxRetriesText env) = (n, None)
        /\ gocql.RetryPolicy (gocql.cfg (cs g))
           = Some (retry.NewCosmosRetryPolicy n)).
Proof.
  intros Hinit.
  unfold init, retryFlag, maxRetriesText in *. cbv zeta in *.
  destruct (_ || _) eqn:Htest; [discriminate Hinit|].
  apply mandatory_test in Htest. split; [exact Htest|].
  destruct (strconv.ParseBool _) as [b [e|]]; [discriminate Hinit|].
  cbn [bindRun] in Hinit.
  destruct b.
  - destruct (strconv.Atoi _) as [n [e|]]; [discriminate Hinit|].
    cbn [bindRun] in Hinit. unfold CreateSession in Hinit.
    destruct (connect _) eqn:Hconn; [discriminate Hinit|].
    injection Hinit as <-. cbn.
    repeat split; try assumption; try discriminate.
    intros _. exists n. split; reflexivity.
  - cbn [bindRun] in Hinit. unfold CreateSession in Hinit.
    destruct (connect _) eqn:Hconn; [discriminate Hinit|].
    injection Hinit as <-. cbn.
    repeat split; try assumption; try discriminate.
Qed.

(** X2: whenever [init] completes, the three mandatory variables were set,
    the cluster was reached, and the session was configured for the one
    contact point with port 10350, protocol version 4, TLS 1.2 as minimum,
    both timeouts at three seconds and the credentials of the environment,
    whatever the retry settings; the statement is the insert into
    <keyspace>.<table>; and a retry policy is installed exactly when the
    flag is on. *)
Theorem init_completed_state
  (connect : gocql.ClusterConfig -> option string)
  (env : gmap string string) (g : Globals) :
  init connect env = Ok g ->
  let c := gocql.cfg (cs g) in
  mandatorySet env
  /\ connect c = None
  /\ gocql.Hosts c = [os.Getenv env "COSMOSDB_CASSANDRA_CONTACT_POINT"]
  /\ gocql.Port c = 10350
  /\ gocql.ProtoVersion c = 4
  /\ gocql.SslMinVersion c = Some tlsVersionTLS12
  /\ gocql.ConnectTimeout c = 3 * gocql.Second
  /\ gocql.Timeout c = 3 * gocql.Second
  /\ gocql.Authenticator c
     = Some {| gocql.Username := os.Getenv env "COSMOSDB_CASSANDRA_USER";
               gocql.Password := os.Getenv env "COSMOSDB_CASSANDRA_PASSWORD" |}
  /\ insertQuery g
     = "insert into " +:+ os.Getenv env "COSMOSDB_CASSANDRA_KEYSPACE" +:+ "."
         +:+ os.Getenv env "COSMOSDB_CASSANDRA_TABLE"
         +:+ " (id,amount,state,time) values (?,?,?,?)"
  /\ (gocql.RetryPolicy c = None <-> useRetryPolicy g = false).
Proof.
  intros Hinit c. subst c.
  destruct (init_inversion connect env g Hinit)
    as (Hset & _ & Hconn & Hcfg & Hq & Hoff & Hon).
  split; [exact Hset|]. split; [exact Hconn|].
  rewrite Hcfg. cbn. repeat split; try reflexivity; try exact Hq.
  - intros Hnone. destruct (useRetryPolicy g); [|reflexivity].
    destruct (Hon eq_refl) as (n & _ & Hsome). congruence.
  - exact Hoff.
Qed.

Lemma init_completed_state_witness :
  exists g,
    init reachable sampleEnv = Ok g
    /\ gocql.Port (gocql.cfg (cs g)) = 10350
    /\ gocql.ProtoVersion (gocql.cfg (cs g)) = 4
    /\ insertQuery g = "insert into . (id,amount,state,time) values (?,?,?,?)".
Proof.
  destruct (init reachable sampleEnv) as [g|m] eqn:Hinit;
    [|vm_compute in Hinit; discriminate Hinit].
  exists g. split; [reflexivity|].
  pose proof (init_completed_state reachable sampleEnv g Hinit) as H.
  cbv zeta in H.
  destruct H as (_ & _ & _ & Hport & Hproto & _ & _ & _ & _ & Hq & _).
  split; [exact Hport|]. split; [exact Hproto|]. exact Hq.
Defined.

(** ** Defaults and what is never read *)

(** Rewrites every look-up in an environment extended at [k]. *)
Ltac env_lookup k v :=
  repeat match goal with
    | |- context [os.Getenv (<[k := v]> ?e) ?k'] =>
        first [ rewrite (Getenv_insert_ne e k k' v) by discriminate
              | rewrite (Getenv_insert_eq e k v) ]
    end.

(** X3: leaving USE_RETRY_POLICY unset is the same as setting it to true,
    and leaving MAX_RETRIES unset is the same as setting it to 5: start-up
    ends the same way, with the same state or the same fatal error. *)
Theorem init_defaults
  (connect : gocql.ClusterConfig -> option string) (env : gmap string string) :
  (os.Getenv env "USE_RETRY_POLICY" = "" ->
   init connect (<["USE_RETRY_POLICY" := "true"]> env) = init connect env)
  /\ (os.Getenv env "MAX_RETRIES" = "" ->
      init connect (<["MAX_RETRIES" := "5"]> env) = init connect env).
Proof.
  split; intros Hunset; unfold init; cbv zeta.
  - env_lookup "USE_RETRY_POLICY" "true". rewrite Hunset. reflexivity.
  - env_lookup "MAX_RETRIES" "5". rewrite Hunset. reflexivity.
Qed.

Lemma init_defaults_witness :
  os.Getenv sampleEnv "USE_RETRY_POLICY" = ""
  /\ os.Getenv sampleEnv "MAX_RETRIES" = ""
  /\ init reachable (<["USE_RETRY_POLICY" := "true"]> sampleEnv)
     = init reachable sampleEnv
  /\ init reachable (<["MAX_RETRIES" := "5"]> sampleEnv)
     = init reachable sampleEnv.
Proof.
  assert (Hflag : os.Getenv sampleEnv "USE_RETRY_POLICY" = "")
    by (vm_compute; reflexivity).
  assert (Hcount : os.Getenv sampleEnv "MAX_RETRIES" = "")
    by (vm_compute; reflexivity).
  split; [exact Hflag|]. split; [exact Hcount|].
  destruct (init_defaults reachable sampleEnv) as (H1 & H2).
  split; [exact (H1 Hflag) | exact (H2 Hcount)].
Defined.

(** X4: with the retry policy switched off MAX_RETRIES is never read:
    whatever it holds, even a text that is no number, start-up ends the
    same way as without it. *)
Theorem init_disabled_ignores_MAX_RETRIES
  (connect : gocql.ClusterConfig -> option string) (env : gmap string string)
  (v : string) :
  strconv.ParseBool (retryFlag env) = (false, None) ->
  init connect (<["MAX_RETRIES" := v]> env) = init connect env.
Proof.
  intros Hflag. unfold init, retryFlag in *. cbv zeta in *.
  env_lookup "MAX_RETRIES" v.
  destruct (_ || _); [reflexivity|].
  rewrite Hflag. reflexivity.
Qed.

Lemma init_disabled_ignores_MAX_RETRIES_witness :
  let env := <["USE_RETRY_POLICY" := "0"]> sampleEnv in
  strconv.ParseBool (retryFlag env) = (false, None)
  /\ init reachable (<["MAX_RETRIES" := "many"]> env) = init reachable env
  /\ exists g, init reachable (<["MAX_RETRIES" := "many"]> env) = Ok g.
Proof.
  intros env.
  assert (Hflag : strconv.ParseBool (retryFlag env) = (false, None))
    by (vm_compute; reflexivity).
  split; [exact Hflag|].
  split; [exact (init_disabled_ignores_MAX_RETRIES reachable env "many" Hflag)|].
  rewrite (init_disabled_ignores_MAX_RETRIES reachable env "many" Hflag).
  eexists. vm_compute. reflexivity.
Defined.

(** ** The spellings of the flag *)

Lemma ParseBool_cases (s : string) :
  (In s ["1"; "t"; "T"; "TRUE"; "true"; "True"]
   /\ strconv.ParseBool s = (true, None))
  \/ (In s ["0"; "f"; "F"; "FALSE"; "false"; "False"]
      /\ strconv.ParseBool s = (false, None))
  \/ (~ In s ["1"; "t"; "T"; "TRUE"; "true"; "True";
              "0"; "f"; "F"; "FALSE"; "false"; "False"]
      /\ strconv.ParseBool s
         = (false, Some {| strconv.Func := "ParseBool"; strconv.Num := s;
                           strconv.Err := strconv.ErrSyntax |})).
Proof.
  unfold strconv.ParseBool.
  repeat match goal with
    | |- context [String.eqb s ?t] =>
        destruct (String.eqb_spec s t) as [->|?]
    end;
    first
      [ left; split; [simpl; tauto | reflexivity]
      | right; left; split; [simpl; tauto | reflexivity]
      | right; right; split; [simpl; intuition congruence | reflexivity] ].
Qed.

Lemma retryFlag_cases (env : gmap string string) :
  (os.Getenv env "USE_RETRY_POLICY" = "" /\ retryFlag env = "true")
  \/ (os.Getenv env "USE_RETRY_POLICY" <> ""
      /\ retryFlag env = os.Getenv env "USE_RETRY_POLICY").
Proof.
  unfold retryFlag. cbv zeta.
  destruct (String.eqb_spec (os.Getenv env "USE_RETRY_POLICY") "") as [Heq|Hne].
  - left. split; [exact Heq | reflexivity].
  - right. split; [exact Hne | reflexivity].
Qed.

Lemma flag_texts_disjoint (v : string) :
  In v ["1"; "t"; "T"; "TRUE"; "true"; "True"] ->
  In v ["0"; "f"; "F"; "FALSE"; "false"; "False"] -> False.
Proof.
  intros Ht Hf. simpl in Ht.
  repeat (destruct Ht as [<-|Ht];
          [simpl in Hf; intuition discriminate|]).
  exact Ht.
Qed.

(** X5: USE_RETRY_POLICY is read by [strconv.ParseBool].  With the
    mandatory variables set, a text that is neither empty nor one of the
    twelve accepted spellings stops start-up with a syntax error for that
    text; and a completed start-up has the policy switched on exactly for
    the empty text and 1, t, T, TRUE, true, True, and switched off exactly
    for 0, f, F, FALSE, false, False. *)
Theorem init_flag_spellings
  (connect : gocql.ClusterConfig -> option string) (env : gmap string string) :
  mandatorySet env ->
  let v := os.Getenv env "USE_RETRY_POLICY" in
  (~ In v [""; "1"; "t"; "T"; "TRUE"; "true"; "True";
           "0"; "f"; "F"; "FALSE"; "false"; "False"] ->
   init connect env
   = Fatal (FatalNumError {| strconv.Func := "ParseBool"; strconv.Num := v;
                             strconv.Err := strconv.ErrSyntax |}))
  /\ (forall g,
        init connect env = Ok g ->
        (useRetryPolicy g = true
         <-> In v [""; "1"; "t"; "T"; "TRUE"; "true"; "True"])
        /\ (useRetryPolicy g = false
            <-> In v ["0"; "f"; "F"; "FALSE"; "false"; "False"])).
Proof.
  intros Hset v. subst v. split.
  - intros Hout.
    destruct (retryFlag_cases env) as [(Hempty & _) | (_ & Htext)].
    + exfalso. apply Hout. left. symmetry. exact Hempty.
    + destruct (ParseBool_cases (os.Getenv env "USE_RETRY_POLICY"))
        as [(Hin & _) | [(Hin & _) | (_ & Herr)]].
      * exfalso. apply Hout. right. apply in_or_app with (l := [_;_;_;_;_;_]).
        left. exact Hin.
      * exfalso. apply Hout. right. apply in_or_app with (l := [_;_;_;_;_;_]).
        right. exact Hin.
      * apply (init_bad_flag connect env false); [exact Hset|].
        rewrite Htext. exact Herr.
  - intros g Hinit.
    destruct (init_inversion connect env g Hinit) as (_ & Hflag & _).
    destruct (retryFlag_cases env) as [(Hempty & Htext) | (Hne & Htext)];
      rewrite Htext in Hflag.
    + assert (Hon : useRetryPolicy g = true) by (inversion Hflag; reflexivity).
      rewrite Hempty, Hon. split; split; intros H.
      * left. reflexivity.
      * reflexivity.
      * discriminate H.
      * simpl in H. intuition discriminate.
    + destruct (ParseBool_cases (os.Getenv env "USE_RETRY_POLICY"))
        as [(Hin & Hpb) | [(Hin & Hpb) | (_ & Hpb)]];
        rewrite Hpb in Hflag; inversion Hflag as [Hb].
      * split; split; intros H; try reflexivity.
        -- right. exact Hin.
        -- discriminate H.
        -- exfalso. exact (flag_texts_disjoint _ Hin H).
      * split; split; intros H; try reflexivity.
        -- discriminate H.
        -- destruct H as [Hempty | H]; [congruence|].
           exfalso. exact (flag_texts_disjoint _ H Hin).
        -- exact Hin.
Qed.

Lemma init_flag_spellings_witness :
  let env := <["USE_RETRY_POLICY" := "yes"]> sampleEnv in
  mandatorySet env
  /\ init reachable env
     = Fatal (FatalNumError {| strconv.Func := "ParseBool"; strconv.Num := "yes";
                               strconv.Err := strconv.ErrSyntax |}).
Proof.
  intros env.
  assert (Hset : mandatorySet env) by (repeat split; vm_compute; discriminate).
  split; [exact Hset|].
  destruct (init_flag_spellings reachable env Hset) as (Hbad & _).
  apply Hbad. vm_compute. intuition discriminate.
Defined.

(** ** Retry counts at and beyond the bounds of [int] *)

Lemma parseUintLoop_step (c : ascii) (s : string) (n d : Z) :
  strconv.digit c = Some d ->
  strconv.parseUintLoop (String c s) n
  = if strconv.cutoff <=? n then (strconv.maxUint64, Some strconv.ErrRange)
    else if strconv.maxUint64 <? n * 10 + d
         then (strconv.maxUint64, Some strconv.ErrRange)
         else strconv.parseUintLoop s (n * 10 + d).
Proof. intros Hd. simpl. rewrite Hd. reflexivity. Qed.

Lemma parseUintLoop_overflow (d : Decimal.uint) :
  forall acc,
    0 <= acc <= strconv.maxUint64 ->
    strconv.maxUint64 < strconv.uintValue d acc ->
    strconv.parseUintLoop (NilEmpty.string_of_uint d) acc
    = (strconv.maxUint64, Some strconv.ErrRange).
Proof.
  induction d; intros acc Hacc Hover; [simpl in Hover; lia | ..];
    simpl in Hover;
    match type of Hover with
    | _ < strconv.uintValue _ (_ * 10 + ?k) =>
        change (NilEmpty.string_of_uint ?x)
          with (String (ascii_of_nat (48 + Z.to_nat k))
                  (NilEmpty.string_of_uint d));
        rewrite (parseUintLoop_step _ _ acc k) by reflexivity;
        destruct (strconv.cutoff <=? acc) eqn:Hcut; [reflexivity|];
        destruct (strconv.maxUint64 <? acc * 10 + k) eqn:Hmax; [reflexivity|];
        apply Z.ltb_ge in Hmax; apply IHd; [lia | exact Hover]
    end.
Qed.

Lemma parseUintLoop_decimal (p : positive) :
  strconv.parseUintLoop (NilEmpty.string_of_uint (Pos.to_uint p)) 0
  = if Z.pos p <=? strconv.maxUint64 then (Z.pos p, None)
    else (strconv.maxUint64, Some strconv.ErrRange).
Proof.
  pose proof (uintValue_to_uint p) as Hval. pose proof maxUint64_eq as Hm.
  destruct (Z.pos p <=? strconv.maxUint64) eqn:Hfit.
  - apply Z.leb_le in Hfit. rewrite <- Hval.
    apply parseUintLoop_digits; [lia | rewrite Hval; exact Hfit].
  - apply Z.leb_gt in Hfit. apply parseUintLoop_overflow; lia.
Qed.

Lemma decimal_starts_with_digit (p : positive) :
  exists c rest k,
    NilEmpty.string_of_uint (Pos.to_uint p) = String c rest
    /\ strconv.digit c = Some k.
Proof.
  pose proof (DecimalPos.Unsigned.to_uint_nonnil p) as Hnil.
  destruct (Pos.to_uint p); [congruence | ..]; simpl;
    eexists _, _, _; (split; [reflexivity | reflexivity]).
Qed.

Lemma NilZero_string_of_uint_pos (p : positive) :
  NilZero.string_of_uint (Pos.to_uint p)
  = NilEmpty.string_of_uint (Pos.to_uint p).
Proof.
  pose proof (DecimalPos.Unsigned.to_uint_nonnil p) as Hnil.
  unfold NilZero.string_of_uint. destruct (Pos.to_uint p); congruence.
Qed.

Lemma digit_not_sign (c : ascii) (k : Z) :
  strconv.digit c = Some k ->
  Ascii.eqb c "-"%char = false /\ Ascii.eqb c "+"%char = false.
Proof.
  intros Hd. split.
  - destruct (Ascii.eqb_spec c "-"%char) as [->|]; [discriminate Hd | reflexivity].
  - destruct (Ascii.eqb_spec c "+"%char) as [->|]; [discriminate Hd | reflexivity].
Qed.

Lemma ParseInt_unsigned (c : ascii) (rest : string) (k : Z) :
  strconv.digit c = Some k ->
  strconv.ParseInt (String c rest)
  = match strconv.parseUintLoop (String c rest) 0 with
    | (_, Some strconv.ErrSyntax) => (0, Some strconv.ErrSyntax)
    | (un, _) =>
        if 2 ^ 63 <=? un then (GoInt.MaxInt, Some strconv.ErrRange)
        else (un, None)
    end.
Proof.
  intros Hd. destruct (digit_not_sign c k Hd) as (Hminus & Hplus).
  unfold strconv.ParseInt. rewrite Hminus, Hplus. reflexivity.
Qed.

Lemma ParseInt_negative (c : ascii) (rest : string) :
  strconv.ParseInt (String "-" (String c rest))
  = match strconv.parseUintLoop (String c rest) 0 with
    | (_, Some strconv.ErrSyntax) => (0, Some strconv.ErrSyntax)
    | (un, _) =>
        if 2 ^ 63 <? un then (GoInt.MinInt, Some strconv.ErrRange)
        else (- un, None)
    end.
Proof. reflexivity. Qed.

(** Reading back the decimal text of any integer: the integer itself
    inside the range of [int], a range error and the nearest bound
    outside. *)
Lemma ParseInt_decimal (n : Z) :
  strconv.ParseInt (fmt.verb_v_int n)
  = if n <? GoInt.MinInt then (GoInt.MinInt, Some strconv.ErrRange)
    else if GoInt.MaxInt <? n then (GoInt.MaxInt, Some strconv.ErrRange)
    else (n, None).
Proof.
  pose proof maxUint64_eq as Hm.
  unfold fmt.verb_v_int. destruct n as [|p|p]; [reflexivity | | ].
  - unfold Z.to_int, NilZero.string_of_int.
    rewrite NilZero_string_of_uint_pos.
    destruct (decimal_starts_with_digit p) as (c & rest & k & Htext & Hd).
    pose proof (parseUintLoop_decimal p) as Hloop. rewrite Htext in *.
    rewrite (ParseInt_unsigned c rest k Hd), Hloop.
    unfold GoInt.MinInt, GoInt.MaxInt.
    destruct (Z.pos p <? - 2 ^ 63) eqn:H1; [apply Z.ltb_lt in H1; lia|].
    destruct (Z.pos p <=? strconv.maxUint64) eqn:Hfit.
    + destruct (2 ^ 63 <=? Z.pos p) eqn:H2;
        destruct (2 ^ 63 - 1 <? Z.pos p) eqn:H3; try reflexivity;
        [apply Z.leb_le in H2; apply Z.ltb_ge in H3
        |apply Z.leb_gt in H2; apply Z.ltb_lt in H3]; lia.
    + apply Z.leb_gt in Hfit.
      destruct (2 ^ 63 - 1 <? Z.pos p) eqn:H3;
        [|apply Z.ltb_ge in H3; lia].
      rewrite Hm. reflexivity.
  - unfold Z.to_int, NilZero.string_of_int.
    rewrite NilZero_string_of_uint_pos.
    destruct (decimal_starts_with_digit p) as (c & rest & k & Htext & Hd).
    pose proof (parseUintLoop_decimal p) as Hloop. rewrite Htext in *.
    rewrite ParseInt_negative, Hloop.
    unfold GoInt.MinInt, GoInt.MaxInt.
    destruct (Z.pos p <=? strconv.maxUint64) eqn:Hfit.
    + destruct (2 ^ 63 <? Z.pos p) eqn:H2;
        destruct (Z.neg p <? - 2 ^ 63) eqn:H1; try reflexivity;
        try (apply Z.ltb_lt in H2; apply Z.ltb_ge in H1; lia);
        try (apply Z.ltb_ge in H2; apply Z.ltb_lt in H1; lia).
    + apply Z.leb_gt in Hfit.
      destruct (Z.neg p <? - 2 ^ 63) eqn:H1; [|apply Z.ltb_ge in H1; lia].
      rewrite Hm. reflexivity.
Qed.

Lemma Atoi_decimal_in_range (n : Z) :
  GoInt.InRange n -> strconv.Atoi (fmt.verb_v_int n) = (n, None).
Proof.
  intros [Hlo Hhi]. unfold strconv.Atoi. rewrite ParseInt_decimal.
  destruct (n <? GoInt.MinInt) eqn:H1; [apply Z.ltb_lt in H1; lia|].
  destruct (GoInt.MaxInt <? n) eqn:H2; [apply Z.ltb_lt in H2; lia|].
  reflexivity.
Qed.

Lemma Atoi_decimal_out_of_range (n : Z) :
  ~ GoInt.InRange n ->
  snd (strconv.Atoi (fmt.verb_v_int n))
  = Some {| strconv.Func := "Atoi"; strconv.Num := fmt.verb_v_int n;
            strconv.Err := strconv.ErrRange |}.
Proof.
  intros Hout. unfold strconv.Atoi. rewrite ParseInt_decimal.
  destruct (n <? GoInt.MinInt) eqn:H1; [reflexivity|].
  destruct (GoInt.MaxInt <? n) eqn:H2; [reflexivity|].
  apply Z.ltb_ge in H1, H2. exfalso. apply Hout. split; assumption.
Qed.

Lemma verb_v_int_not_empty (n : Z) : fmt.verb_v_int n <> "".
Proof.
  intros Hempty. pose proof (ParseInt_decimal n) as Hback.
  rewrite Hempty in Hback.
  destruct (n <? GoInt.MinInt); [discriminate Hback|].
  destruct (GoInt.MaxInt <? n); discriminate Hback.
Qed.

(** X6: [init] does not check the sign of the retry count.  With the
    policy enabled, the decimal text of any negative integer n that fits
    an [int] is accepted and the policy is built with n itself. *)
Theorem init_accepts_negative_count
  (connect : gocql.ClusterConfig -> option string) (env : gmap string string)
  (n : Z) :
  mandatorySet env ->
  strconv.ParseBool (retryFlag env) = (true, None) ->
  (forall c, connect c = None) ->
  GoInt.MinInt <= n < 0 ->
  os.Getenv env "MAX_RETRIES" = fmt.verb_v_int n ->
  exists g,
    init connect env = Ok g
    /\ gocql.RetryPolicy (gocql.cfg (cs g))
       = Some (retry.NewCosmosRetryPolicy n)
    /\ gocql.MaxRetryCount (retry.NewCosmosRetryPolicy n) < 0.
Proof.
  intros Hset Hflag Hconn Hn Htext.
  assert (Hread : strconv.Atoi (maxRetriesText env) = (n, None)).
  { rewrite (maxRetriesText_set env (fmt.verb_v_int n));
      [|apply verb_v_int_not_empty | exact Htext].
    apply Atoi_decimal_in_range. unfold GoInt.InRange, GoInt.MaxInt. lia. }
  eexists. split.
  - apply (init_completes connect env true Hset Hflag); [|exact Hconn].
    intros _. rewrite Hread. reflexivity.
  - cbn [cs gocql.cfg gocql.RetryPolicy]. rewrite Hread.
    split; [reflexivity | simpl; lia].
Qed.

Lemma init_accepts_negative_count_witness :
  let env := <["MAX_RETRIES" := "-3"]> sampleEnv in
  mandatorySet env
  /\ strconv.ParseBool (retryFlag env) = (true, None)
  /\ GoInt.MinInt <= -3 < 0
  /\ os.Getenv env "MAX_RETRIES" = fmt.verb_v_int (-3)
  /\ exists g,
       init reachable env = Ok g
       /\ gocql.RetryPolicy (gocql.cfg (cs g))
          = Some (retry.NewCosmosRetryPolicy (-3)).
Proof.
  intros env.
  assert (Hset : mandatorySet env) by (repeat split; vm_compute; discriminate).
  assert (Hflag : strconv.ParseBool (retryFlag env) = (true, None))
    by (vm_compute; reflexivity).
  assert (Hconn : forall c, reachable c = None) by reflexivity.
  assert (Hn : GoInt.MinInt <= -3 < 0) by (vm_compute; split; congruence).
  assert (Htext : os.Getenv env "MAX_RETRIES" = fmt.verb_v_int (-3))
    by (vm_compute; reflexivity).
  split; [exact Hset|]. split; [exact Hflag|]. split; [exact Hn|].
  split; [exact Htext|].
  destruct (init_accepts_negative_count reachable env (-3)
              Hset Hflag Hconn Hn Htext) as (g & Hinit & Hpolicy & _).
  exists g. split; assumption.
Defined.

(** X7: with the policy enabled, the decimal text of an integer outside
    the range of [int] stops start-up with a range error for that text,
    before anything is connected. *)
Theorem init_rejects_count_out_of_range
  (connect : gocql.ClusterConfig -> option string) (env : gmap string string)
  (n : Z) :
  mandatorySet env ->
  strconv.ParseBool (retryFlag env) = (true, None) ->
  ~ GoInt.InRange n ->
  os.Getenv env "MAX_RETRIES" = fmt.verb_v_int n ->
  init connect env
  = Fatal (FatalNumError {| strconv.Func := "Atoi";
                            strconv.Num := fmt.verb_v_int n;
                            strconv.Err := strconv.ErrRange |}).
Proof.
  intros Hset Hflag Hout Htext.
  pose proof (Atoi_decimal_out_of_range n Hout) as Herr.
  destruct (strconv.Atoi (fmt.verb_v_int n)) as [m e] eqn:Hread.
  simpl in Herr. subst e.
  apply (init_bad_count connect env m); [exact Hset | exact Hflag |].
  rewrite (maxRetriesText_set env (fmt.verb_v_int n));
    [exact Hread | apply verb_v_int_not_empty | exact Htext].
Qed.

Lemma init_rejects_count_out_of_range_witness :
  let env := <["MAX_RETRIES" := "9223372036854775808"]> sampleEnv in
  mandatorySet env
  /\ strconv.ParseBool (retryFlag env) = (true, None)
  /\ ~ GoInt.InRange 9223372036854775808
  /\ os.Getenv env "MAX_RETRIES" = fmt.verb_v_int 9223372036854775808
  /\ init reachable env
     = Fatal (FatalNumError {| strconv.Func := "Atoi";
                               strconv.Num := "9223372036854775808";
                               strconv.Err := strconv.ErrRange |}).
Proof.
  intros env.
  assert (Hset : mandatorySet env) by (repeat split; vm_compute; discriminate).
  assert (Hflag : strconv.ParseBool (retryFlag env) = (true, None))
    by (vm_compute; reflexivity).
  assert (Hout : ~ GoInt.InRange 9223372036854775808)
    by (intros [_ Hhi]; vm_compute in Hhi; congruence).
  assert (Htext : os.Getenv env "MAX_RETRIES"
                  = fmt.verb_v_int 9223372036854775808)
    by (vm_compute; reflexivity).
  split; [exact Hset|]. split; [exact Hflag|]. split; [exact Hout|].
  split; [exact Htext|].
  exact (init_rejects_count_out_of_range reachable env 9223372036854775808
           Hset Hflag Hout Htext).
Defined.

(** ** The substring tests behind the status *)

Lemma substring_prefix (sub : string) :
  forall s,
    String.substring 0 (String.length sub) s = sub -> exists b, s = sub +:+ b.
Proof.
  induction sub as [|c sub IH]; intros s Hsub.
  - exists s. reflexivity.
  - destruct s as [|c' s']; [discriminate Hsub|].
    simpl in Hsub. injection Hsub as -> Hrest.
    destruct (IH s' Hrest) as (b & ->).
    exists b. rewrite append_cons. reflexivity.
Qed.

Lemma substring_split (n : nat) :
  forall s sub,
    String.substring n (String.length sub) s = sub ->
    exists a b, s = a +:+ sub +:+ b.
Proof.
  induction n as [|n IH]; intros s sub Hsub.
  - destruct (substring_prefix sub s Hsub) as (b & ->).
    exists "", b. reflexivity.
  - destruct s as [|c s'].
    + destruct sub; [|destruct (String.length _); discriminate Hsub].
      exists "", "". reflexivity.
    + simpl in Hsub. destruct (IH s' sub Hsub) as (a & b & ->).
      exists (String c a), b. rewrite append_cons. reflexivity.
Qed.

Lemma Contains_iff (s sub : string) :
  strings.Contains s sub = true <-> exists a b, s = a +:+ sub +:+ b.
Proof.
  split.
  - unfold strings.Contains, strings.Index.
    destruct (String.index 0 sub s) as [n|] eqn:Hidx; [|discriminate].
    intros _. apply String.index_correct1 in Hidx.
    exact (substring_split n s sub Hidx).
  - intros (a & b & ->). apply Contains_app_mid.
Qed.

(** X8: the status of a failed write is read off the error text alone.
    It is 429 exactly when the text has TooManyRequests (429) somewhere
    inside it, 408 exactly when it has timeout somewhere inside it and not
    that marker, and 500 exactly when it has neither. *)
Theorem respStatus_by_substring (e : string) :
  let throttled := exists a b, e = a +:+ "TooManyRequests (429)" +:+ b in
  let timedOut := exists a b, e = a +:+ "timeout" +:+ b in
  (respStatus e = 429 <-> throttled)
  /\ (respStatus e = 408 <-> timedOut /\ ~ throttled)
  /\ (respStatus e = 500 <-> ~ timedOut /\ ~ throttled).
Proof.
  cbv zeta. rewrite <- !Contains_iff. unfold respStatus.
  unfold http.StatusTooManyRequests, http.StatusRequestTimeout,
    http.StatusInternalServerError.
  destruct (strings.Contains e "TooManyRequests (429)");
    destruct (strings.Contains e "timeout");
    repeat split; intros; try discriminate; try reflexivity;
    try tauto; try (intuition discriminate).
Qed.

Lemma respStatus_by_substring_witness :
  respStatus "gocql: no response received from cassandra within timeout period"
  = 408
  /\ respStatus "Timeout" = 500.
Proof.
  split.
  - apply (respStatus_by_substring
             "gocql: no response received from cassandra within timeout period").
    split.
    + exists "gocql: no response received from cassandra within ", " period".
      reflexivity.
    + intros Hin. apply Contains_iff in Hin. discriminate Hin.
  - apply (respStatus_by_substring "Timeout").
    split; intros Hin; apply Contains_iff in Hin; discriminate Hin.
Defined.

(** ** The log of one request *)

Lemma ObserveQuery_lines (l : OrderInsertErrorLogger)
  (oq : gocql.ObservedQuery) (line : string) :
  In line (ObserveQuery l oq) ->
  exists err,
    gocql.Err oq = Some err
    /\ (line = queryErrorLine (orderID l) err
        \/ line = retriedLine (orderID l) (gocql.Attempt oq)
           /\ 0 < gocql.Attempt oq).
Proof.
  unfold ObserveQuery. destruct (gocql.Err oq) as [err|]; [|intros []].
  intros Hin. exists err. split; [reflexivity|].
  destruct Hin as [<-|Hin]; [left; reflexivity|].
  destruct (0 <? gocql.Attempt oq) eqn:Hpos; [|destruct Hin].
  destruct Hin as [<-|[]]. right. split; [reflexivity|].
  apply Z.ltb_lt. exact Hpos.
Qed.

Lemma ObserveQuery_length (l : OrderInsertErrorLogger)
  (oq : gocql.ObservedQuery) :
  List.length (ObserveQuery l oq)
  = ((if isFailure oq then 1 else 0)
     + (if isRetriedFailure oq then 1 else 0))%nat.
Proof.
  unfold ObserveQuery, isRetriedFailure, isFailure.
  destruct (gocql.Err oq); [|reflexivity].
  destruct (0 <? gocql.Attempt oq); reflexivity.
Qed.

Lemma observer_log_length (l : OrderInsertErrorLogger)
  (seen : list gocql.ObservedQuery) :
  List.length (flat_map (ObserveQuery l) seen)
  = (List.length (List.filter isFailure seen)
     + List.length (List.filter isRetriedFailure seen))%nat.
Proof.
  induction seen as [|oq seen IH]; [reflexivity|].
  cbn [flat_map List.filter]. rewrite length_app, IH, ObserveQuery_length.
  destruct (isFailure oq); destruct (isRetriedFailure oq); simpl; lia.
Qed.

Lemma observer_line_not_added (l : OrderInsertErrorLogger)
  (seen : list gocql.ObservedQuery) (rid : string) :
  ~ In (addedLine rid) (flat_map (ObserveQuery l) seen).
Proof.
  intros Hin. apply in_flat_map in Hin. destruct Hin as (oq & _ & Hline).
  apply ObserveQuery_lines in Hline.
  destruct Hline as (err & _ & [Heq | (Heq & _)]);
    unfold addedLine, queryErrorLine, retriedLine in Heq;
    rewrite !append_cons in Heq; discriminate Heq.
Qed.

(** X9: every record logged while a request is handled, by the observer
    or by the handler, contains the order identifier generated for that
    request. *)
Theorem Add_log_carries_order_id
  (driver : gocql.Session -> Query -> ExecRun) (g : Globals)
  (rw : http.ResponseWriter) (req : Request) (line : string) :
  In line (logged (Add driver g rw req)) ->
  strings.Contains line (fst (GenerateUUID req)) = true.
Proof.
  intros Hin. pose proof (Add_logged driver g rw req) as Hlog.
  cbv zeta in Hlog. rewrite Hlog in Hin. clear Hlog.
  assert (Hseen : forall seen,
             In line (flat_map
                        (ObserveQuery {| orderID := fst (GenerateUUID req) |})
                        seen) ->
             strings.Contains line (fst (GenerateUUID req)) = true).
  { intros seen Hs. apply in_flat_map in Hs. destruct Hs as (oq & _ & Hline).
    apply ObserveQuery_lines in Hline.
    destruct Hline as (err & _ & [-> | (-> & _)]).
    - apply queryErrorLine_has_id.
    - apply retriedLine_has_id. }
  destruct (result _).
  - apply (Hseen _ Hin).
  - apply in_app_or in Hin. destruct Hin as [Hin | [<- | []]].
    + apply (Hseen _ Hin).
    + apply Contains_app_mid.
Qed.

Lemma Add_log_carries_order_id_witness :
  let served := Add (givingUpDriver "timeout") sampleGlobals http.fresh
                  sampleRequest in
  In (retriedLine "7f4e" 1) (logged served)
  /\ strings.Contains (retriedLine "7f4e" 1) "7f4e" = true.
Proof.
  intros served.
  assert (Hin : In (retriedLine "7f4e" 1) (logged served))
    by (right; right; left; reflexivity).
  split; [exact Hin|].
  exact (Add_log_carries_order_id (givingUpDriver "timeout") sampleGlobals
           http.fresh sampleRequest (retriedLine "7f4e" 1) Hin).
Defined.

(** X10: the handler's own record, Added order ID <id>, is in the log of a
    request exactly when the insert succeeded, and then it is the last
    record; after a failed insert the log holds the observer's records
    only. *)
Theorem Add_added_line_iff_success
  (driver : gocql.Session -> Query -> ExecRun) (g : Globals)
  (rw : http.ResponseWriter) (req : Request) :
  let served := Add driver g rw req in
  let ran := driver (cs g) (executed served) in
  let rid := fst (GenerateUUID req) in
  let seen := flat_map (ObserveQuery {| orderID := rid |}) (attempts ran) in
  (In (addedLine rid) (logged served) <-> result ran = None)
  /\ (result ran = None -> logged served = (seen ++ [addedLine rid])%list)
  /\ (result ran <> None -> logged served = seen).
Proof.
  cbv zeta. pose proof (Add_logged driver g rw req) as Hlog.
  cbv zeta in Hlog. rewrite Hlog. clear Hlog.
  destruct (result _) as [e|].
  - split; [|split].
    + split; [|discriminate].
      intros Hin. exfalso. exact (observer_line_not_added _ _ _ Hin).
    + discriminate.
    + reflexivity.
  - split; [|split].
    + split; [reflexivity|]. intros _. apply in_or_app. right. left. reflexivity.
    + reflexivity.
    + congruence.
Qed.

(** X11: the number of records a request leaves in the log is the number
    of failed attempts the driver reported, plus the number of those that
    were not the first attempt, plus one when the insert succeeded. *)
Theorem Add_log_count
  (driver : gocql.Session -> Query -> ExecRun) (g : Globals)
  (rw : http.ResponseWriter) (req : Request) :
  let served := Add driver g rw req in
  let ran := driver (cs g) (executed served) in
  List.length (logged served)
  = (List.length (List.filter isFailure (attempts ran))
     + List.length (List.filter isRetriedFailure (attempts ran))
     + match result ran with None => 1 | Some _ => 0 end)%nat.
Proof.
  cbv zeta. pose proof (Add_logged driver g rw req) as Hlog.
  cbv zeta in Hlog. rewrite Hlog. clear Hlog.
  destruct (result _).
  - rewrite observer_log_length. lia.
  - rewrite length_app, observer_log_length. cbn [List.length]. lia.
Qed.

(** ** The statement and its values *)

Lemma placeholders_app (a b : string) :
  placeholders (a +:+ b) = (placeholders a + placeholders b)%nat.
Proof.
  induction a as [|c a IH]; [reflexivity|].
  rewrite append_cons. simpl. rewrite IH. lia.
Qed.

(** X12: after a completed start-up every request runs the statement
    insert into <keyspace>.<table> (id,amount,state,time) values (?,?,?,?)
    built from the environment, with four bound values, whatever the two
    names are; the statement has four placeholders plus the question
    marks of the two names, so it has as many placeholders as there are
    values exactly when neither name holds a question mark. *)
Theorem Add_statement_arity
  (connect : gocql.ClusterConfig -> option string) (env : gmap string string)
  (driver : gocql.Session -> Query -> ExecRun) (g : Globals)
  (rw : http.ResponseWriter) (req : Request) :
  init connect env = Ok g ->
  let keyspace := os.Getenv env "COSMOSDB_CASSANDRA_KEYSPACE" in
  let table := os.Getenv env "COSMOSDB_CASSANDRA_TABLE" in
  let q := executed (Add driver g rw req) in
  stmt q
  = "insert into " +:+ keyspace +:+ "." +:+ table
      +:+ " (id,amount,state,time) values (?,?,?,?)"
  /\ List.length (values q) = 4%nat
  /\ placeholders (stmt q)
     = (List.length (values q) + placeholders keyspace + placeholders table)%nat
  /\ (placeholders (stmt q) = List.length (values q)
      <-> placeholders keyspace = 0%nat /\ placeholders table = 0%nat).
Proof.
  intros Hinit keyspace table q. subst keyspace table q. rewrite Add_executed.
  cbn [stmt values List.length].
  destruct (init_inversion connect env g Hinit) as (_ & _ & _ & _ & Hq & _).
  rewrite Hq. unfold insertQueryFormat.
  split; [reflexivity|]. split; [reflexivity|].
  rewrite !placeholders_app.
  change (placeholders "insert into ") with 0%nat.
  change (placeholders ".") with 0%nat.
  change (placeholders " (id,amount,state,time) values (?,?,?,?)") with 4%nat.
  split; lia.
Qed.

Lemma Add_statement_arity_witness :
  let env := <["COSMOSDB_CASSANDRA_KEYSPACE" := "shop"]>
               (<["COSMOSDB_CASSANDRA_TABLE" := "orders?"]> sampleEnv) in
  exists g,
    init reachable env = Ok g
    /\ stmt (executed (Add quietDriver g http.fresh sampleRequest))
       = "insert into shop.orders? (id,amount,state,time) values (?,?,?,?)"
    /\ List.length (values (executed (Add quietDriver g http.fresh sampleRequest)))
       = 4%nat
    /\ placeholders (stmt (executed (Add quietDriver g http.fresh sampleRequest)))
       = 5%nat.
Proof.
  intros env.
  destruct (init reachable env) as [g|m] eqn:Hinit;
    [|vm_compute in Hinit; discriminate Hinit].
  exists g. split; [reflexivity|].
  pose proof (Add_statement_arity reachable env quietDriver g http.fresh
                sampleRequest Hinit) as H.
  cbv zeta in H. destruct H as (Hstmt & Hlen & Hcount & _).
  split; [exact Hstmt|]. split; [exact Hlen|].
  rewrite Hcount, Hlen. vm_compute. reflexivity.
Defined.

(** X13: the keyspace and the table are not checked at start-up.  When
    start-up completes for an environment, it completes for every other
    choice of the two names, the empty ones included, with the same
    session and flag; only the statement changes. *)
Theorem init_keyspace_table_unchecked
  (connect : gocql.ClusterConfig -> option string) (env : gmap string string)
  (g : Globals) (keyspace table : string) :
  init connect env = Ok g ->
  init connect
    (<["COSMOSDB_CASSANDRA_KEYSPACE" := keyspace]>
       (<["COSMOSDB_CASSANDRA_TABLE" := table]> env))
  = Ok {| cs := cs g;
          insertQuery :=
            "insert into " +:+ keyspace +:+ "." +:+ table
              +:+ " (id,amount,state,time) values (?,?,?,?)";
          useRetryPolicy := useRetryPolicy g |}.
Proof.
  unfold init. cbv zeta.
  env_lookup "COSMOSDB_CASSANDRA_KEYSPACE" keyspace.
  env_lookup "COSMOSDB_CASSANDRA_TABLE" table.
  destruct (_ || _); [discriminate|].
  destruct (strconv.ParseBool _) as [b [e|]]; [discriminate|].
  cbn [bindRun]. destruct b.
  - destruct (strconv.Atoi _) as [n [e|]]; [discriminate|].
    cbn [bindRun]. unfold CreateSession.
    destruct (connect _); [discriminate|].
    intros Hinit. injection Hinit as <-. reflexivity.
  - cbn [bindRun]. unfold CreateSession.
    destruct (connect _); [discriminate|].
    intros Hinit. injection Hinit as <-. reflexivity.
Qed.

Lemma init_keyspace_table_unchecked_witness :
  exists g,
    init reachable
      (<["COSMOSDB_CASSANDRA_KEYSPACE" := "shop"]>
         (<["COSMOSDB_CASSANDRA_TABLE" := "orders"]> sampleEnv)) = Ok g
    /\ insertQuery g
       = "insert into shop.orders (id,amount,state,time) values (?,?,?,?)".
Proof.
  destruct (init reachable sampleEnv) as [g|m] eqn:Hinit;
    [|vm_compute in Hinit; discriminate Hinit].
  eexists. split.
  - exact (init_keyspace_table_unchecked reachable sampleEnv g "shop" "orders"
             Hinit).
  - reflexivity.
Defined.
